(** * AI Web Scraper ([app.py]): extraction engine and error paths

    A shallow embedding of [scrape_website] and [is_valid_url] of [app.py].

    - Python [str] values are lists of Unicode code points ([pystr]).
    - The three collaborators the script imports ([requests], the
      [BeautifulSoup] constructor with [select] and [str(element)], and
      [validators]) are fields of a record [World]; the tag and attribute
      queries of a parsed tree ([find_all], [.string], [.text]) are
      functions on an explicit node tree.
    - Exceptions are values of [exn]; [st.warning], [st.error], [print],
      the HTTP request and the parse are events of a trace, so that "no
      network call" and "no parse" are statements about the trace. *)

From Stdlib Require Import List NArith ZArith Bool String Ascii Lia.
From Stdlib Require Import DecimalString.
Import ListNotations.
Local Open Scope N_scope.

(** ** Python strings *)

Module PyStr.

(** A [str] is a sequence of code points. *)
Definition pystr := list N.

(** An ASCII literal. *)
Definition str (s : string) : pystr :=
  map N_of_ascii (list_ascii_of_string s).

Definition dollar : pystr := [36].      (* '$' *)
Definition euro   : pystr := [8364].    (* U+20AC *)
Definition pound  : pystr := [163].     (* U+00A3 *)

Fixpoint eqb (a b : pystr) : bool :=
  match a, b with
  | [], [] => true
  | x :: a', y :: b' => N.eqb x y && eqb a' b'
  | _, _ => false
  end.

(** [s.startswith(p)] *)
Fixpoint startswith (p s : pystr) : bool :=
  match p, s with
  | [], _ => true
  | _ :: _, [] => false
  | x :: p', y :: s' => N.eqb x y && startswith p' s'
  end.

(** [sub in s] *)
Fixpoint contains (sub s : pystr) : bool :=
  startswith sub s ||
  match s with
  | [] => false
  | _ :: s' => contains sub s'
  end.

(** Truthiness of a string: [bool(s)]. *)
Definition truthy (s : pystr) : bool :=
  match s with [] => false | _ :: _ => true end.

(** [str.isspace] on one code point: the code points of bidirectional
    class WS, B or S, and of category Zs. *)
Definition isspace (c : N) : bool :=
  ((9 <=? c) && (c <=? 13)) || ((28 <=? c) && (c <=? 32))
  || (c =? 133) || (c =? 160) || (c =? 5760)
  || ((8192 <=? c) && (c <=? 8202))
  || (c =? 8232) || (c =? 8233) || (c =? 8239) || (c =? 8287)
  || (c =? 12288).

Fixpoint lstrip (s : pystr) : pystr :=
  match s with
  | [] => []
  | c :: s' => if isspace c then lstrip s' else s
  end.

Definition rstrip (s : pystr) : pystr := rev (lstrip (rev s)).

(** [s.strip()] *)
Definition strip (s : pystr) : pystr := rstrip (lstrip s).

(** [s.lower()]. The letters A-Z move to a-z. Two other code points have
    a lower-case form with an ASCII part: U+0130, which becomes [i]
    followed by U+0307, and the Kelvin sign U+212A, which becomes [k].
    Every remaining code point is kept as it is: Python sends it to code
    points outside ASCII, which no test in [scrape_website] looks for. *)
Definition lower_char (c : N) : pystr :=
  if (65 <=? c) && (c <=? 90) then [c + 32]
  else if c =? 304 then [105; 775]
  else if c =? 8490 then [107]
  else [c].

Definition lower (s : pystr) : pystr := flat_map lower_char s.

(** [s.replace(old, new)] for a non-empty [old]: occurrences are taken
    from the left and do not overlap. [skip] counts the code points of
    the occurrence under way that are still to be dropped. *)
Fixpoint replace_from (old new : pystr) (skip : nat) (s : pystr) : pystr :=
  match s with
  | [] => []
  | c :: s' =>
      match skip with
      | S k => replace_from old new k s'
      | O =>
          if startswith old s
          then new ++ replace_from old new (pred (List.length old)) s'
          else c :: replace_from old new O s'
      end
  end.

(** With an empty [old] Python puts [new] before every code point and at
    the end. *)
Definition replace (old new s : pystr) : pystr :=
  match old with
  | [] => flat_map (fun c => new ++ [c]) s ++ new
  | _ :: _ => replace_from old new O s
  end.

(** [str(n)] for an integer. *)
Definition of_Z (z : Z) : pystr :=
  str (NilZero.string_of_int (Z.to_int z)).

End PyStr.

Import PyStr.

(** ** The parsed tree and its queries *)

Module Bs4.

(** A node of the tree [BeautifulSoup(..., 'html.parser')] builds. A tag
    has a name (lower case), an attribute dictionary and its contents in
    document order. [Comment] stands for the string classes that
    [get_text] of an ordinary tag leaves out: comments, doctypes and
    declarations, and the strings the parser files under a [script],
    [style], [template], [rt] or [rp] tag. *)
#[warnings="-register-all"]
Inductive node : Type :=
| Tag (name : pystr) (attrs : list (pystr * pystr)) (contents : list node)
| NavigableString (s : pystr)
| Comment (s : pystr).

(** [tag.descendants]: every node below [n], in document order. *)
Fixpoint descendants (n : node) : list node :=
  match n with
  | Tag _ _ cs => flat_map (fun c => c :: descendants c) cs
  | NavigableString _ | Comment _ => []
  end.

(** [tag.string]: the single string below a tag, looking through a chain
    of only children; [None] as soon as a tag has no child or several. *)
Fixpoint string_of (n : node) : option pystr :=
  match n with
  | NavigableString s | Comment s => Some s
  | Tag _ _ [c] => string_of c
  | Tag _ _ _ => None
  end.

(** [tag.text]: the strings below the tag, joined; a [Comment] adds
    nothing. This is the text of every tag but [script], [style],
    [template], [rt] and [rp]: the text of one of these five is made of
    the strings filed under it, which are [Comment] here. *)
Fixpoint text (n : node) : pystr :=
  match n with
  | NavigableString s => s
  | Comment _ => []
  | Tag _ _ cs => flat_map text cs
  end.

(** [attrs.get(key)] *)
Fixpoint get (attrs : list (pystr * pystr)) (key : pystr) : option pystr :=
  match attrs with
  | [] => None
  | (k, v) :: rest => if PyStr.eqb k key then Some v else get rest key
  end.

(** A callable handed to [find_all]: it receives the value, or [None]. *)
Definition matcher := option pystr -> bool.

(** What [find_all] asks of one descendant: a tag whose name is one of
    [names], whose attributes pass every matcher of [attrs], and whose
    [.string] passes [string] when one is given. Strings never match a
    query that names tags. *)
Definition search_tag (names : list pystr) (attrs : list (pystr * matcher))
    (string : option matcher) (n : node) : bool :=
  match n with
  | Tag name a _ =>
      existsb (PyStr.eqb name) names
      && forallb (fun km => snd km (get a (fst km))) attrs
      && match string with
         | None => true
         | Some f => f (string_of n)
         end
  | NavigableString _ | Comment _ => false
  end.

(** [soup.find_all(names, string=..., **attrs)] *)
Definition find_all (names : list pystr) (attrs : list (pystr * matcher))
    (string : option matcher) (soup : node) : list node :=
  filter (search_tag names attrs string) (descendants soup).

End Bs4.

Import Bs4.

(** ** Exceptions, the trace and the monad of [scrape_website] *)

(** The exception classes that reach a handler of the script. The
    [requests] classes keep their hierarchy in [isinstance]. *)
Inductive exc_class : Type :=
| ValueError
| KeyError
| Exception
| Timeout
| ConnectTimeout
| ReadTimeout
| SSLError
| ProxyError
| ConnectionError
| HTTPError
| UnboundLocalError
| OtherError (name : pystr).

Record exn : Type := mkExn { exc_type : exc_class; exc_str : pystr }.

(** [type(e).__name__] *)
Definition type_name (c : exc_class) : pystr :=
  match c with
  | ValueError => str "ValueError"
  | KeyError => str "KeyError"
  | Exception => str "Exception"
  | Timeout => str "Timeout"
  | ConnectTimeout => str "ConnectTimeout"
  | ReadTimeout => str "ReadTimeout"
  | SSLError => str "SSLError"
  | ProxyError => str "ProxyError"
  | ConnectionError => str "ConnectionError"
  | HTTPError => str "HTTPError"
  | UnboundLocalError => str "UnboundLocalError"
  | OtherError name => name
  end.

(** [isinstance(e, requests.exceptions.Timeout)] and its siblings. *)
Definition is_Timeout (c : exc_class) : bool :=
  match c with Timeout | ConnectTimeout | ReadTimeout => true | _ => false end.

Definition is_SSLError (c : exc_class) : bool :=
  match c with SSLError => true | _ => false end.

Definition is_ConnectionError (c : exc_class) : bool :=
  match c with
  | ConnectionError | ConnectTimeout | SSLError | ProxyError => true
  | _ => false
  end.

Definition is_HTTPError (c : exc_class) : bool :=
  match c with HTTPError => true | _ => false end.

(** What the run of [scrape_website] does to the outside. *)
Inductive event : Type :=
| ev_request (url : pystr)      (* requests.get is called *)
| ev_parse                      (* BeautifulSoup(...) is called *)
| ev_warning (msg : pystr)      (* st.warning *)
| ev_error (msg : pystr)        (* st.error *)
| ev_print (msg : pystr).       (* print *)

(** A computation leaves a trace and ends in a value or an exception. *)
Definition M (A : Type) : Type := (list event * (exn + A))%type.

Definition ret {A} (x : A) : M A := ([], inr x).

Definition raise {A} (c : exc_class) (msg : pystr) : M A :=
  ([], inl (mkExn c msg)).

Definition reraise {A} (e : exn) : M A := ([], inl e).

Definition bind {A B} (m : M A) (f : A -> M B) : M B :=
  match m with
  | (t, inl e) => (t, inl e)
  | (t, inr x) => let (t', r) := f x in (t ++ t', r)
  end.

Definition emit (ev : event) : M unit := ([ev], inr tt).

(** The outcome of a call into a library. *)
Definition call {A} (r : exn + A) : M A := ([], r).

(** [try: m  except Exception as e: handler e] *)
Definition try_except {A} (m : M A) (handler : exn -> M A) : M A :=
  match m with
  | (t, inl e) => let (t', r) := handler e in (t ++ t', r)
  | (t, inr x) => (t, inr x)
  end.

(** [if c: m] with no [else]. *)
Definition when (c : bool) (m : M unit) : M unit :=
  if c then m else ret tt.

Declare Scope py_scope.
Delimit Scope py_scope with py.
Notation "x <- m ;; k" := (bind m (fun x => k))
  (at level 61, m at next level, right associativity) : py_scope.
Notation "m ;; k" := (bind m (fun _ => k))
  (at level 61, right associativity) : py_scope.

(** A list comprehension whose element expression may raise. *)
Fixpoint comprehension {A B} (f : A -> exn + B) (l : list A) : exn + list B :=
  match l with
  | [] => inr []
  | x :: l' =>
      match f x with
      | inl e => inl e
      | inr y =>
          match comprehension f l' with
          | inl e => inl e
          | inr ys => inr (y :: ys)
          end
      end
  end.

(** ** The collaborators *)

(** The part of a [requests.Response] the script reads. *)
Record Response : Type := mkResponse {
  status_code : Z;
  reason : pystr;
  response_url : pystr;
  content : list Byte.byte
}.

(** The libraries the script calls into, as functions of their
    arguments: the HTTP client, the HTML parser, the CSS selector engine
    behind [soup.select], the serializer behind [str(element)], and
    [validators.url]. *)
Record World : Type := mkWorld {
  requests_get : pystr -> exn + Response;
  BeautifulSoup : list Byte.byte -> exn + node;
  select : node -> pystr -> exn + list node;
  element_str : node -> pystr;
  validators_url : pystr -> bool
}.

(** [response.raise_for_status()] *)
Definition raise_for_status (r : Response) : M unit :=
  let code := status_code r in
  if ((400 <=? code) && (code <? 500))%Z then
    raise HTTPError
      (of_Z code ++ str " Client Error: " ++ reason r
       ++ str " for url: " ++ response_url r)
  else if ((500 <=? code) && (code <? 600))%Z then
    raise HTTPError
      (of_Z code ++ str " Server Error: " ++ reason r
       ++ str " for url: " ++ response_url r)
  else ret tt.

(** ** [app.py] *)

Local Open Scope py_scope.

(** [is_valid_url], lines 63-64. *)
Definition is_valid_url (w : World) (url : pystr) : bool :=
  validators_url w url.

(** A result table: the list of dictionaries given to [pd.DataFrame],
    each a list of column and value. *)
Definition row := list (pystr * pystr).
Definition DataFrame := list row.

(** [not x] for an optional string. *)
Definition falsy (x : option pystr) : bool :=
  match x with
  | None => true
  | Some s => negb (truthy s)
  end.

(** Line 70. *)
Definition http_prefixed (url : pystr) : bool :=
  startswith (str "http://") url || startswith (str "https://") url.

(** The [except] clauses of lines 80-92, tried in order. [response] is
    the local variable of that name, unbound while [requests.get] has
    not returned. *)
Definition fetch_handler (response : option Response) (e : exn) : M Response :=
  if is_Timeout (exc_type e) then
    raise Exception
      (str "Request timed out. The website took too long to respond.")
  else if is_SSLError (exc_type e) then
    raise Exception
      (str "SSL Certificate verification failed. The website might not be secure.")
  else if is_ConnectionError (exc_type e) then
    raise Exception
      (str "Failed to connect to the website. Please check your internet connection.")
  else if is_HTTPError (exc_type e) then
    match response with
    | None =>
        raise UnboundLocalError
          (str "cannot access local variable 'response' where it is not associated with a value")
    | Some r =>
        if (status_code r =? 403)%Z then
          raise Exception
            (str "Access forbidden. The website might be blocking web scrapers.")
        else if (status_code r =? 404)%Z then
          raise Exception
            (str "Page not found. Please check if the URL is correct.")
        else
          raise Exception (str "HTTP error occurred: " ++ exc_str e)
    end
  else reraise e.

(** Lines 74-92: the request and its status check, under one [try]. *)
Definition fetch (w : World) (url : pystr) : M Response :=
  response <- try_except
                (emit (ev_request url) ;; call (requests_get w url))
                (fetch_handler None) ;;
  try_except
    (raise_for_status response ;; ret response)
    (fetch_handler (Some response)).

(** Lines 95-98. *)
Definition parse (w : World) (response : Response) : M node :=
  try_except
    (emit ev_parse ;; call (BeautifulSoup w (content response)))
    (fun parse_err =>
       raise Exception
         (str "Failed to parse HTML content: " ++ exc_str parse_err)).

(** Line 113: [lambda text: text and ('$' in text or ...)]. *)
Definition price_text : matcher := fun text =>
  match text with
  | None => false
  | Some t =>
      truthy t && (contains dollar t || contains euro t || contains pound t)
  end.

(** Line 121: [lambda href: href and 'mailto:' in href]. *)
Definition mailto_href : matcher := fun href =>
  match href with
  | None => false
  | Some h => truthy h && contains (str "mailto:") h
  end.

(** [e[key]] on a tag. *)
Definition getitem (e : node) (key : pystr) : exn + pystr :=
  match e with
  | Tag _ a _ =>
      match get a key with
      | Some v => inr v
      | None => inl (mkExn KeyError (str "'" ++ key ++ str "'"))
      end
  | NavigableString _ | Comment _ =>
      inl (mkExn (OtherError (str "TypeError"))
             (str "string indices must be integers"))
  end.

Definition price_row (p : node) : row :=
  [(str "Type", str "Price"); (str "Content", strip (text p))].

Definition email_row (e : node) : exn + row :=
  match getitem e (str "href") with
  | inl err => inl err
  | inr href =>
      inr [(str "Type", str "Email");
           (str "Content", replace (str "mailto:") [] href)]
  end.

(** Lines 101-132: the [Smart Extract] branch. [extracted_data] is
    threaded through the two rules. *)
Definition smart_extract (soup : node) (description : option pystr)
  : M (option DataFrame) :=
  match description with
  | Some d =>
      if truthy d then
        let desc_lower := lower d in
        try_except
          (extracted_data <-
             (if contains (str "price") desc_lower
                 || contains dollar desc_lower
              then
                let price_patterns :=
                  find_all [str "span"; str "div"; str "p"] []
                    (Some price_text) soup in
                when (Nat.eqb (List.length price_patterns) 0)
                  (emit (ev_warning
                           (str "No price information found on the page"))) ;;
                ret (map price_row price_patterns)
              else ret []) ;;
           extracted_data <-
             (if contains (str "email") desc_lower then
                let email_patterns :=
                  find_all [str "a"] [(str "href", mailto_href)] None soup in
                when (Nat.eqb (List.length email_patterns) 0)
                  (emit (ev_warning
                           (str "No email addresses found on the page"))) ;;
                rows <- call (comprehension email_row email_patterns) ;;
                ret (extracted_data ++ rows)
              else ret extracted_data) ;;
           when (Nat.eqb (List.length extracted_data) 0)
             (emit (ev_warning
                      (str "No matching data found for your description"))) ;;
           ret (Some extracted_data))
          (fun extract_err =>
             raise Exception
               (str "Error during smart extraction: " ++ exc_str extract_err))
      else raise ValueError (str "Description is required for Smart Extract")
  | None => raise ValueError (str "Description is required for Smart Extract")
  end.

(** Lines 135-149: the [Custom Elements] branch. *)
Definition custom_elements (w : World) (soup : node)
    (custom_tag : option pystr) : M (option DataFrame) :=
  match custom_tag with
  | Some sel =>
      if truthy sel then
        try_except
          (matched <- call (select w soup sel) ;;
           let elements :=
             map (fun element =>
                    [(str "Content", strip (text element));
                     (str "HTML", element_str w element)]) matched in
           when (Nat.eqb (List.length elements) 0)
             (emit (ev_warning
                      (str "No elements found matching selector: " ++ sel))) ;;
           ret (Some elements))
          (fun selector_err =>
             raise Exception
               (str "Invalid CSS selector: " ++ exc_str selector_err))
      else raise ValueError
             (str "Custom tag is required for Custom Elements option")
  | None => raise ValueError
              (str "Custom tag is required for Custom Elements option")
  end.

(** Lines 100-151: the dispatch on [option]. After the two branches the
    source has only the comment [# ... (rest of the scraping options)]:
    any other option leaves the [try] without a [return], and the
    function returns [None]. *)
Definition extract (w : World) (soup : node) (option : pystr)
    (custom_tag description : Datatypes.option pystr)
  : M (Datatypes.option DataFrame) :=
  if PyStr.eqb option (str "Smart Extract") then
    smart_extract soup description
  else if PyStr.eqb option (str "Custom Elements") then
    custom_elements w soup custom_tag
  else ret None.

(** U+1F6A8, the sign before [Error:] in line 154. *)
Definition siren : pystr := [128680].

(** Lines 153-157: the outermost [except Exception as e]. *)
Definition report (body : M (Datatypes.option DataFrame))
  : list event * Datatypes.option DataFrame :=
  match body with
  | (t, inr result) => (t, result)
  | (t, inl e) =>
      (t ++ [ev_error (siren ++ str " Error: " ++ exc_str e);
             ev_print (str "Debug - Error details: "
                       ++ type_name (exc_type e) ++ str ": " ++ exc_str e)],
       None)
  end.

(** [scrape_website], lines 67-157. The result is the trace of the call
    and the returned value: [Some] table, or [None]. *)
Definition scrape_website (w : World) (url option : pystr)
    (custom_tag description : Datatypes.option pystr)
  : list event * Datatypes.option DataFrame :=
  report
    ((if http_prefixed url then ret tt
      else raise ValueError (str "URL must start with http:// or https://")) ;;
     response <- fetch w url ;;
     soup <- parse w response ;;
     extract w soup option custom_tag description).

Local Close Scope py_scope.

(** ** Vocabulary of the statements *)

(** What the call shows and returns when [e] reaches line 153. *)
Definition reported (e : exn) : list event :=
  [ev_error (siren ++ str " Error: " ++ exc_str e);
   ev_print (str "Debug - Error details: "
             ++ type_name (exc_type e) ++ str ": " ++ exc_str e)].

(** The page at [url] is fetched with a status that
    [raise_for_status] lets through, and parses as [soup]. *)
Definition loads (w : World) (url : pystr) (soup : node) : Prop :=
  http_prefixed url = true /\
  exists r,
    requests_get w url = inr r /\
    ((400 <=? status_code r) && (status_code r <? 600))%Z = false /\
    BeautifulSoup w (content r) = inr soup.

(** One of the currency signs the scan of line 113 knows. *)
Definition has_currency (t : pystr) : bool :=
  contains dollar t || contains euro t || contains pound t.

(** A tag named [name]. *)
Definition named (names : list pystr) (n : node) : bool :=
  match n with
  | Tag name _ _ => existsb (PyStr.eqb name) names
  | NavigableString _ | Comment _ => false
  end.

(** A [span], [div] or [p] whose [.string] holds a currency sign. *)
Definition price_node (n : node) : bool :=
  named [str "span"; str "div"; str "p"] n
  && match string_of n with
     | Some s => has_currency s
     | None => false
     end.

(** The test of line 121 on a node: its [href] holds [mailto:]. *)
Definition mailto_node (n : node) : bool :=
  match n with
  | Tag _ a _ => mailto_href (get a (str "href"))
  | NavigableString _ | Comment _ => false
  end.


(** Two examples from the documentation of [validators.url], with the
    results it gives for them: [url('ftp://foobar.dk')] and
    [url('http://10.0.0.1')] are both [True]. *)
Definition documented_examples : list (pystr * bool) :=
  [(str "ftp://foobar.dk", true); (str "http://10.0.0.1", true)].

(** The validator of [w] answers the documented examples as the
    library does. *)
Definition documented (w : World) : Prop :=
  Forall (fun ex => validators_url w (fst ex) = snd ex) documented_examples.

(** The [href] an anchor carries, empty when it has none. *)
Definition href_of (n : node) : pystr :=
  match n with
  | Tag _ a _ =>
      match get a (str "href") with Some h => h | None => [] end
  | NavigableString _ | Comment _ => []
  end.

(** The nodes the two scans of [Smart Extract] keep. *)
Definition price_nodes (soup : node) : list node :=
  filter price_node (descendants soup).

Definition mailto_anchors (soup : node) : list node :=
  filter mailto_node (filter (named [str "a"]) (descendants soup)).

(** The table [Smart Extract] is expected to build for [d]: the rows of
    the price rule when it fires, then those of the email rule when it
    fires. *)
Definition price_fires (d : pystr) : bool :=
  contains (str "price") (lower d) || contains dollar (lower d).

Definition email_fires (d : pystr) : bool :=
  contains (str "email") (lower d).

Definition smart_rows (soup : node) (d : pystr) : DataFrame :=
  (if price_fires d then map price_row (price_nodes soup) else [])
  ++ (if email_fires d
      then map (fun e => [(str "Type", str "Email");
                          (str "Content",
                           replace (str "mailto:") [] (href_of e))])
             (mailto_anchors soup)
      else []).

(** The advisories that go with it. *)
Definition smart_warnings (soup : node) (d : pystr) : list event :=
  (if price_fires d && Nat.eqb (List.length (price_nodes soup)) 0
   then [ev_warning (str "No price information found on the page")]
   else [])
  ++ (if email_fires d && Nat.eqb (List.length (mailto_anchors soup)) 0
      then [ev_warning (str "No email addresses found on the page")]
      else [])
  ++ (if Nat.eqb (List.length (smart_rows soup d)) 0
      then [ev_warning (str "No matching data found for your description")]
      else []).




(** The tags whose strings the parser files apart, and the others. *)
Definition string_container (name : pystr) : bool :=
  existsb (PyStr.eqb name)
    [str "script"; str "style"; str "template"; str "rt"; str "rp"].

Definition ordinary_tag (n : node) : bool :=
  match n with
  | Tag name _ _ => negb (string_container name)
  | NavigableString _ | Comment _ => false
  end.

(** An advisory, and the three kinds of event that show text. *)
Definition is_warning (ev : event) : bool :=
  match ev with ev_warning _ => true | _ => false end.

Definition shows_text (ev : event) : bool :=
  match ev with
  | ev_warning _ | ev_error _ | ev_print _ => true
  | ev_request _ | ev_parse => false
  end.

(** ** Fixtures *)

(** A world that answers every request with status [code] and a body
    that parses as [soup]; its selector engine knows no node and
    refuses an opening bracket that is never closed. *)
Definition served (code : Z) (soup : node) : World :=
  {| requests_get := fun u => inr (mkResponse code (str "") u []);
     BeautifulSoup := fun _ => inr soup;
     select := fun _ sel =>
       if contains (str "[") sel && negb (contains (str "]") sel)
       then inl (mkExn (OtherError (str "SelectorSyntaxError"))
                   (str "Malformed attribute selector"))
       else inr [];
     element_str := fun _ => [];
     validators_url := fun u =>
       contains (str "://") u && negb (contains (str " ") u) |}.

Definition document (contents : list node) : node :=
  Tag (str "[document]") [] contents.

Definition span (t : pystr) : node :=
  Tag (str "span") [] [NavigableString t].

Definition anchor (href label : pystr) : node :=
  Tag (str "a") [(str "href", href)] [NavigableString label].

Definition example_url : pystr := str "https://example.com".

(** A page with one price in euros: [<span>] U+20AC [5</span>]. *)
Definition euro_page : node := document [span (euro ++ str "5")].

(** A world whose HTTP client raises [e] on every request. *)
Definition unreachable (e : exn) : World :=
  {| requests_get := fun _ => inl e;
     BeautifulSoup := fun _ => inr (document []);
     select := fun _ _ => inr [];
     element_str := fun _ => [];
     validators_url := fun _ => true |}.

(** A world whose pages arrive with status 200 and whose parser raises
    [e]. *)
Definition unparsable (e : exn) : World :=
  {| requests_get := fun u => inr (mkResponse 200 (str "OK") u []);
     BeautifulSoup := fun _ => inl e;
     select := fun _ _ => inr [];
     element_str := fun _ => [];
     validators_url := fun _ => true |}.

(** The stand-in for [str(element)] of the fixtures: the markup of a
    tree whose attribute values hold no double quote, with [&], [<]
    and [>] of its strings written as entities. *)
Definition entities (s : pystr) : pystr :=
  flat_map (fun c => if c =? 38 then str "&amp;"
                     else if c =? 60 then str "&lt;"
                     else if c =? 62 then str "&gt;"
                     else [c]) s.

Fixpoint markup (n : node) : pystr :=
  match n with
  | Tag name a cs =>
      str "<" ++ name
      ++ flat_map (fun kv => str " " ++ fst kv ++ str "=" ++ [34]
                             ++ entities (snd kv) ++ [34]) a
      ++ str ">" ++ flat_map markup cs ++ str "</" ++ name ++ str ">"
  | NavigableString s => entities s
  | Comment s => str "<!--" ++ s ++ str "-->"
  end.

(** A world that serves [soup] with status 200 and whose selector
    engine returns [matched] for every selector. *)
Definition selecting (soup : node) (matched : list node) : World :=
  {| requests_get := fun u => inr (mkResponse 200 (str "OK") u []);
     BeautifulSoup := fun _ => inr soup;
     select := fun _ _ => inr matched;
     element_str := markup;
     validators_url := fun _ => true |}.



(** ** The button handler *)

(** What a click on [Start Scraping] puts on the page: the events of
    [scrape_website] and the widgets the handler itself draws. *)
Inductive ui_event : Type :=
| ui_scrape (ev : event)                     (* inside scrape_website *)
| ui_warning (msg : pystr)                   (* st.warning *)
| ui_error (msg : pystr)                     (* st.error *)
| ui_spinner (msg : pystr)                   (* with st.spinner(...) *)
| ui_progress (percent : nat)                (* st.progress, .progress *)
| ui_success (msg : pystr)                   (* st.success *)
| ui_subheader (msg : pystr)                 (* st.subheader *)
| ui_dataframe (df : DataFrame)              (* st.dataframe *)
| ui_download (label data file_name mime : pystr).  (* st.download_button *)

(** [results.empty]: one of the two axes of the frame has length 0, so
    there is no row, or no row has a column. *)
Definition df_empty (df : DataFrame) : bool :=
  Nat.eqb (List.length df) 0
  || forallb (fun r : row => Nat.eqb (List.length r) 0) df.

(** U+26A0 U+FE0F, the warning sign of lines 164, 182, 185 and 215. *)
Definition warning_sign : pystr := [9888; 65039].

(** Lines 173-176: [st.progress(0)], then [progress(i + 1)] for [i] from
    0 to 99. *)
Definition progress_bar : list ui_event := map ui_progress (seq 0 101).

(** Lines 196-215: what the handler draws for the value
    [scrape_website] returned. [to_csv] is [DataFrame.to_csv] with
    [index=False]. *)
Definition handle_results (to_csv : DataFrame -> pystr)
    (results : option DataFrame) : list ui_event :=
  match results with
  | Some df =>
      if negb (df_empty df) then
        [ui_success ([9989] ++ str " Scraping completed successfully!");
         ui_subheader (str "Scraped Data");
         ui_dataframe df;
         ui_download ([128229] ++ str " Download CSV") (to_csv df)
           (str "scraped_data.csv") (str "text/csv")]
      else
        [ui_warning (warning_sign ++ str " No data found for the given criteria")]
  | None =>
      [ui_warning (warning_sign ++ str " No data found for the given criteria")]
  end.

(** Lines 180-215: the checks of the option, the call of
    [scrape_website] and the display of what it returned. Every
    [st.stop()] ends the run, so the trace ends there. [custom_tag] is
    the text of the side bar input, which exists, and is read, only
    under [Custom Elements]. *)
Definition scrape_and_show (w : World) (to_csv : DataFrame -> pystr)
    (url scraping_option custom_tag user_description : pystr)
  : list ui_event :=
  if PyStr.eqb scraping_option (str "Custom Elements")
     && negb (truthy custom_tag)
  then
    [ui_warning
       (warning_sign ++ str " Please enter a custom element selector")]
  else if PyStr.eqb scraping_option (str "Smart Extract")
          && negb (truthy user_description)
  then
    [ui_warning
       (warning_sign ++ str " Please describe what you want to extract")]
  else
    let (trace, results) :=
      scrape_website w url scraping_option
        (if PyStr.eqb scraping_option (str "Custom Elements")
         then Some custom_tag else None)
        (if PyStr.eqb scraping_option (str "Smart Extract")
         then Some user_description else None) in
    map ui_scrape trace ++ handle_results to_csv results.

(** Lines 160-218, the body of [if st.button("Start Scraping")]. *)
Definition main (w : World) (to_csv : DataFrame -> pystr)
    (url scraping_option custom_tag user_description : pystr)
  : list ui_event :=
  if negb (truthy url) then
    [ui_warning (warning_sign ++ str " Please enter a URL")]
  else if negb (is_valid_url w url) then
    [ui_error ([10060] ++ str " Invalid URL format. Please enter a valid URL (e.g., https://example.com)")]
  else
    ui_spinner ([128260] ++ str " Scraping in progress...")
    :: progress_bar
    ++ scrape_and_show w to_csv url scraping_option custom_tag
         user_description.

(** The URLs the run sends a request to. *)
Definition requests_sent (trace : list ui_event) : list pystr :=
  flat_map (fun ev => match ev with
                      | ui_scrape (ev_request u) => [u]
                      | _ => []
                      end) trace.

(** The stand-in for [to_csv] of the fixtures: the cells of the frame
    joined by commas, one line per row, after the header line. *)
Definition csv_line (cells : list pystr) : pystr :=
  match cells with
  | [] => str ""
  | c :: cs => fold_left (fun acc x => acc ++ str "," ++ x) cs c
  end ++ [10].

Definition plain_csv (df : DataFrame) : pystr :=
  match df with
  | [] => [10]
  | r :: _ => csv_line (map fst r) ++ flat_map (fun r => csv_line (map snd r)) df
  end.

(** ** The run up to the dispatch *)

Lemma raise_for_status_passes r :
  ((400 <=? status_code r) && (status_code r <? 600))%Z = false ->
  raise_for_status r = ret tt.
Proof.
  intros H. unfold raise_for_status.
  destruct ((400 <=? status_code r) && (status_code r <? 500))%Z eqn:E1;
    [exfalso; lia|].
  destruct ((500 <=? status_code r) && (status_code r <? 600))%Z eqn:E2;
    [exfalso; lia|].
  reflexivity.
Qed.

Lemma fetch_passes w url r :
  requests_get w url = inr r ->
  ((400 <=? status_code r) && (status_code r <? 600))%Z = false ->
  fetch w url = ([ev_request url], inr r).
Proof.
  intros Hget Hok. unfold fetch, call. rewrite Hget. cbn.
  rewrite (raise_for_status_passes r Hok). reflexivity.
Qed.

(** Once the page loads, the call is the dispatch of lines 100-151 run
    after the request and the parse, under the handler of line 153. *)
Lemma scrape_website_loaded w url soup option custom_tag description :
  loads w url soup ->
  scrape_website w url option custom_tag description
  = report (bind ([ev_request url; ev_parse], inr tt)
              (fun _ => extract w soup option custom_tag description)).
Proof.
  intros (Hurl & r & Hget & Hok & Hparse).
  unfold scrape_website. rewrite Hurl. cbn.
  rewrite (fetch_passes w url r Hget Hok). cbn.
  unfold parse, call. rewrite Hparse. cbn.
  destruct (extract w soup option custom_tag description) as [t [e|x]];
    reflexivity.
Qed.

(** ** Error paths of the dispatch *)

Lemma extract_smart w soup custom_tag description :
  extract w soup (str "Smart Extract") custom_tag description
  = smart_extract soup description.
Proof. reflexivity. Qed.

Lemma extract_custom w soup custom_tag description :
  extract w soup (str "Custom Elements") custom_tag description
  = custom_elements w soup custom_tag.
Proof. reflexivity. Qed.

Lemma served_loads code soup url :
  http_prefixed url = true ->
  ((400 <=? code) && (code <? 600))%Z = false ->
  loads (served code soup) url soup.
Proof.
  intros Hurl Hcode. split; [exact Hurl|].
  exists (mkResponse code (str "") url []). cbn. auto.
Qed.

(** C4. For every page that loads, whatever its tree, [Smart Extract]
    with no description or an empty one raises
    [ValueError("Description is required for Smart Extract")]: the call
    shows that error and returns [None], no table. *)
Theorem smart_extract_requires_description w url soup custom_tag description :
  loads w url soup ->
  falsy description = true ->
  scrape_website w url (str "Smart Extract") custom_tag description
  = ([ev_request url; ev_parse]
       ++ reported (mkExn ValueError
                      (str "Description is required for Smart Extract")),
     None).
Proof.
  intros Hload Hd. rewrite (scrape_website_loaded _ _ _ _ _ _ Hload).
  rewrite extract_smart. unfold smart_extract.
  destruct description as [d|]; [|reflexivity].
  cbn in Hd. destruct (truthy d); [discriminate|reflexivity].
Qed.

Lemma smart_extract_requires_description_witness :
  scrape_website (served 200 (document [span (str "$10")])) example_url
    (str "Smart Extract") None (Some [])
  = ([ev_request example_url; ev_parse]
       ++ reported (mkExn ValueError
                      (str "Description is required for Smart Extract")),
     None).
Proof.
  apply smart_extract_requires_description with
    (soup := document [span (str "$10")]).
  - apply served_loads; reflexivity.
  - reflexivity.
Defined.

(** C7. For every page that loads and every selector the engine behind
    [soup.select] refuses with an exception [e], [Custom Elements]
    shows [Invalid CSS selector: ] followed by the message of [e] and
    returns [None]: neither rows nor an empty table. *)
Theorem invalid_selector_is_reported w url soup sel description e :
  loads w url soup ->
  truthy sel = true ->
  select w soup sel = inl e ->
  scrape_website w url (str "Custom Elements") (Some sel) description
  = ([ev_request url; ev_parse]
       ++ reported (mkExn Exception
                      (str "Invalid CSS selector: " ++ exc_str e)),
     None).
Proof.
  intros Hload Hsel Hraise. rewrite (scrape_website_loaded _ _ _ _ _ _ Hload).
  rewrite extract_custom. unfold custom_elements, call.
  rewrite Hsel, Hraise. reflexivity.
Qed.

Lemma invalid_selector_is_reported_witness :
  scrape_website (served 200 (document [span (str "$10")])) example_url
    (str "Custom Elements") (Some (str "div[class")) None
  = ([ev_request example_url; ev_parse]
       ++ reported (mkExn Exception
                      (str "Invalid CSS selector: "
                       ++ str "Malformed attribute selector")),
     None).
Proof.
  apply (invalid_selector_is_reported
           (served 200 (document [span (str "$10")])) example_url
           (document [span (str "$10")]) (str "div[class") None
           (mkExn (OtherError (str "SelectorSyntaxError"))
              (str "Malformed attribute selector"))).
  - apply served_loads; reflexivity.
  - reflexivity.
  - reflexivity.
Defined.

(** C8. For every page that loads and every selector that the engine
    accepts and that matches no node, [Custom Elements] returns the
    empty table, [Some []] and not [None], after the advisory
    [No elements found matching selector: ...]; no error is shown. *)
Theorem unmatched_selector_gives_empty_table w url soup sel description :
  loads w url soup ->
  truthy sel = true ->
  select w soup sel = inr [] ->
  scrape_website w url (str "Custom Elements") (Some sel) description
  = ([ev_request url; ev_parse;
      ev_warning (str "No elements found matching selector: " ++ sel)],
     Some []).
Proof.
  intros Hload Hsel Hnone. rewrite (scrape_website_loaded _ _ _ _ _ _ Hload).
  rewrite extract_custom. unfold custom_elements, call.
  rewrite Hsel, Hnone. reflexivity.
Qed.

Lemma unmatched_selector_gives_empty_table_witness :
  scrape_website (served 200 (document [span (str "$10")])) example_url
    (str "Custom Elements") (Some (str "div.missing-class")) None
  = ([ev_request example_url; ev_parse;
      ev_warning (str "No elements found matching selector: "
                  ++ str "div.missing-class")],
     Some []).
Proof.
  apply unmatched_selector_gives_empty_table with
    (soup := document [span (str "$10")]).
  - apply served_loads; reflexivity.
  - reflexivity.
  - reflexivity.
Defined.

(** C9. For every [http] or [https] URL whose response has status 404,
    [raise_for_status] raises [HTTPError] and the call shows
    [Page not found. ...]; with status 403 it shows
    [Access forbidden. ...]. In both cases the call returns [None] and
    its trace ends there: the parser is never called. *)
Theorem not_found_and_forbidden_abort_before_parsing
    w url option custom_tag description r :
  http_prefixed url = true ->
  requests_get w url = inr r ->
  (status_code r = 404%Z ->
   scrape_website w url option custom_tag description
   = (ev_request url
        :: reported (mkExn Exception
             (str "Page not found. Please check if the URL is correct.")),
      None))
  /\ (status_code r = 403%Z ->
      scrape_website w url option custom_tag description
      = (ev_request url
           :: reported (mkExn Exception
                (str "Access forbidden. The website might be blocking web scrapers.")),
         None))
  /\ (status_code r = 404%Z \/ status_code r = 403%Z ->
      ~ In ev_parse (fst (scrape_website w url option custom_tag description))
      /\ snd (scrape_website w url option custom_tag description) = None).
Proof.
  intros Hurl Hget.
  assert (H404 : status_code r = 404%Z ->
     scrape_website w url option custom_tag description
     = (ev_request url
          :: reported (mkExn Exception
               (str "Page not found. Please check if the URL is correct.")),
        None)).
  { intros Hcode. unfold scrape_website. rewrite Hurl.
    unfold fetch, call. rewrite Hget.
    cbn -[raise_for_status fetch_handler report].
    unfold raise_for_status, fetch_handler. rewrite Hcode. reflexivity. }
  assert (H403 : status_code r = 403%Z ->
     scrape_website w url option custom_tag description
     = (ev_request url
          :: reported (mkExn Exception
               (str "Access forbidden. The website might be blocking web scrapers.")),
        None)).
  { intros Hcode. unfold scrape_website. rewrite Hurl.
    unfold fetch, call. rewrite Hget.
    cbn -[raise_for_status fetch_handler report].
    unfold raise_for_status, fetch_handler. rewrite Hcode. reflexivity. }
  split; [exact H404|]. split; [exact H403|].
  intros Hc. split.
  - intros Hin.
    destruct Hc as [Hc|Hc];
      [rewrite (H404 Hc) in Hin | rewrite (H403 Hc) in Hin];
      cbn in Hin; intuition discriminate.
  - destruct Hc as [Hc|Hc]; [rewrite (H404 Hc) | rewrite (H403 Hc)];
      reflexivity.
Qed.

Lemma not_found_and_forbidden_abort_before_parsing_witness :
  scrape_website (served 404 (document [])) example_url
    (str "Smart Extract") None (Some (str "price"))
  = (ev_request example_url
       :: reported (mkExn Exception
            (str "Page not found. Please check if the URL is correct.")),
     None)
  /\ scrape_website (served 403 (document [])) example_url
       (str "Smart Extract") None (Some (str "price"))
     = (ev_request example_url
          :: reported (mkExn Exception
               (str "Access forbidden. The website might be blocking web scrapers.")),
        None).
Proof.
  split.
  - apply (proj1 (not_found_and_forbidden_abort_before_parsing
                    (served 404 (document [])) example_url
                    (str "Smart Extract") None (Some (str "price"))
                    (mkResponse 404 (str "") example_url [])
                    eq_refl eq_refl)).
    reflexivity.
  - apply (proj1 (proj2 (not_found_and_forbidden_abort_before_parsing
                    (served 403 (document [])) example_url
                    (str "Smart Extract") None (Some (str "price"))
                    (mkResponse 403 (str "") example_url [])
                    eq_refl eq_refl))).
    reflexivity.
Defined.

(** ** Options without a branch *)

(** C2. The code at the three options the claim names: for every page
    that loads, whatever anchors, text or images its tree holds,
    [Links], [Text Content] and [Images] reach the end of the [try]
    without a [return]. The call returns [None], shows nothing, and no
    row is built. *)
Theorem links_text_images_return_nothing
    w url soup option custom_tag description :
  loads w url soup ->
  In option [str "Links"; str "Text Content"; str "Images"] ->
  scrape_website w url option custom_tag description
  = ([ev_request url; ev_parse], None).
Proof.
  intros Hload Hopt. rewrite (scrape_website_loaded _ _ _ _ _ _ Hload).
  cbn in Hopt. destruct Hopt as [<-|[<-|[<-|[]]]]; reflexivity.
Qed.

Lemma links_text_images_return_nothing_witness :
  scrape_website
    (served 200 (document [anchor (str "https://example.com/a") (str "A")]))
    example_url (str "Links") None None
  = ([ev_request example_url; ev_parse], None).
Proof.
  apply links_text_images_return_nothing with
    (soup := document [anchor (str "https://example.com/a") (str "A")]).
  - apply served_loads; reflexivity.
  - left. reflexivity.
Defined.

(** ** Descriptions that trigger no rule *)

(** C10. For every page that loads and every non-empty description
    whose lower-case form holds neither [price] nor [$] nor [email]
    (so none of [price], [$], the euro and pound signs, [email] in
    particular when the last two are absent as well), [Smart Extract]
    returns the empty table [Some []] after the advisory
    [No matching data found for your description]; no error is shown. *)
Theorem untriggered_description_gives_empty_table
    w url soup custom_tag d :
  loads w url soup ->
  truthy d = true ->
  contains (str "price") (lower d) = false ->
  contains dollar (lower d) = false ->
  contains (str "email") (lower d) = false ->
  scrape_website w url (str "Smart Extract") custom_tag (Some d)
  = ([ev_request url; ev_parse;
      ev_warning (str "No matching data found for your description")],
     Some []).
Proof.
  intros Hload Hd Hprice Hdollar Hemail.
  rewrite (scrape_website_loaded _ _ _ _ _ _ Hload).
  rewrite extract_smart. unfold smart_extract.
  rewrite Hd, Hprice, Hdollar, Hemail. reflexivity.
Qed.

Lemma untriggered_description_gives_empty_table_witness :
  scrape_website (served 200 (document [span (str "$10")])) example_url
    (str "Smart Extract") None (Some (str "article titles"))
  = ([ev_request example_url; ev_parse;
      ev_warning (str "No matching data found for your description")],
     Some []).
Proof.
  apply untriggered_description_gives_empty_table with
    (soup := document [span (str "$10")]).
  - apply served_loads; reflexivity.
  - reflexivity.
  - reflexivity.
  - reflexivity.
  - reflexivity.
Defined.

(** ** Facts about strings *)

Lemma startswith_app a b s :
  startswith (a ++ b) s = true -> startswith a s = true.
Proof.
  revert s. induction a as [|x a IH]; intros s H; [reflexivity|].
  destruct s as [|y s]; [discriminate|]. cbn in *.
  apply andb_true_iff in H as [Hxy Hrest].
  rewrite Hxy. cbn. apply IH, Hrest.
Qed.

(** A string that holds [a ++ b] holds [a]. *)
Lemma contains_app a b s :
  contains (a ++ b) s = true -> contains a s = true.
Proof.
  induction s as [|c s IH]; intros H; cbn in *.
  - apply orb_true_iff in H as [H|H]; [|discriminate].
    rewrite (startswith_app _ _ _ H). reflexivity.
  - apply orb_true_iff in H as [H|H].
    + rewrite (startswith_app _ _ _ H). reflexivity.
    + rewrite (IH H). apply orb_true_r.
Qed.

Lemma has_currency_truthy t : has_currency t = true -> truthy t = true.
Proof. destruct t; [discriminate|reflexivity]. Qed.

(** The callable of line 113 is the test for a currency sign: the
    guard [text and ...] only spares the call on [None]. *)
Lemma price_text_spec text :
  price_text text
  = match text with Some t => has_currency t | None => false end.
Proof.
  destruct text as [t|]; [|reflexivity]. unfold price_text.
  fold (has_currency t). destruct (has_currency t) eqn:E.
  - rewrite (has_currency_truthy t E). reflexivity.
  - apply andb_false_r.
Qed.

(** ** Facts about the tree *)


Lemma filter_andb (A : Type) (f g : A -> bool) (l : list A) :
  filter (fun x => f x && g x) l = filter g (filter f l).
Proof.
  induction l as [|x l IH]; [reflexivity|]. cbn.
  destruct (f x); cbn; [destruct (g x)|]; rewrite IH; reflexivity.
Qed.


(** The query of lines 111-114 keeps the price nodes. *)
Lemma search_tag_price n :
  search_tag [str "span"; str "div"; str "p"] [] (Some price_text) n
  = price_node n.
Proof.
  destruct n as [name a cs| |]; [|reflexivity|reflexivity].
  unfold search_tag, price_node, named. rewrite price_text_spec.
  cbn [forallb]. rewrite andb_true_r. reflexivity.
Qed.

Lemma find_all_price soup :
  find_all [str "span"; str "div"; str "p"] [] (Some price_text) soup
  = filter price_node (descendants soup).
Proof. unfold find_all. apply filter_ext. intros n. apply search_tag_price. Qed.




(** ** The email rule *)

Lemma find_all_mailto soup :
  find_all [str "a"] [(str "href", mailto_href)] None soup
  = filter mailto_node (filter (named [str "a"]) (descendants soup)).
Proof.
  unfold find_all. rewrite <- filter_andb. apply filter_ext.
  intros [name a cs| |]; [|reflexivity|reflexivity].
  unfold search_tag, named, mailto_node. cbn [forallb fst snd].
  rewrite !andb_true_r. reflexivity.
Qed.

(** Every node the email scan keeps has an [href], so line 124 raises
    no [KeyError] and builds one [Email] row per node. *)
Lemma email_rows_defined l :
  Forall (fun n => mailto_node n = true) l ->
  exists rows,
    comprehension email_row l = inr rows
    /\ List.length rows = List.length l
    /\ Forall (fun r => get r (str "Type") = Some (str "Email")) rows.
Proof.
  induction 1 as [|n l Hn _ (rows & Hrows & Hlen & Hall)].
  - exists []. repeat split; constructor.
  - destruct n as [name a cs| |]; try discriminate.
    unfold mailto_node in Hn.
    destruct (get a (str "href")) as [h|] eqn:Hh; [|discriminate].
    exists ([(str "Type", str "Email");
             (str "Content", replace (str "mailto:") [] h)] :: rows).
    cbn [comprehension]. unfold email_row at 1, getitem. rewrite Hh, Hrows.
    repeat split.
    + cbn. rewrite Hlen. reflexivity.
    + constructor; [reflexivity|exact Hall].
Qed.

Lemma filter_all (A : Type) (f : A -> bool) (l : list A) :
  Forall (fun x => f x = true) (filter f l).
Proof. apply Forall_forall. intros x Hx. apply filter_In in Hx. tauto. Qed.

(** C5. In a document whose only anchor has the [href]
    [mailto:a@b.com], [Smart Extract] with the description
    [find emails] returns exactly one row, of [Type] [Email] and
    [Content] [a@b.com]. *)
Theorem find_emails_strips_mailto w url soup attrs cs custom_tag :
  loads w url soup ->
  filter (named [str "a"]) (descendants soup) = [Tag (str "a") attrs cs] ->
  get attrs (str "href") = Some (str "mailto:a@b.com") ->
  scrape_website w url (str "Smart Extract") custom_tag
    (Some (str "find emails"))
  = ([ev_request url; ev_parse],
     Some [[(str "Type", str "Email"); (str "Content", str "a@b.com")]]).
Proof.
  intros Hload Hanchors Hhref.
  rewrite (scrape_website_loaded _ _ _ _ _ _ Hload).
  rewrite extract_smart. unfold smart_extract.
  replace (truthy (str "find emails")) with true by reflexivity.
  replace (lower (str "find emails")) with (str "find emails")
    by reflexivity.
  replace (contains (str "price") (str "find emails")) with false
    by reflexivity.
  replace (contains dollar (str "find emails")) with false by reflexivity.
  replace (contains (str "email") (str "find emails")) with true
    by reflexivity.
  cbn [orb]. rewrite find_all_mailto, Hanchors.
  cbn [filter mailto_node]. rewrite Hhref.
  replace (mailto_href (Some (str "mailto:a@b.com"))) with true
    by reflexivity.
  cbn [comprehension]. unfold email_row, getitem. rewrite Hhref.
  reflexivity.
Qed.

Lemma find_emails_strips_mailto_witness :
  scrape_website
    (served 200
       (document [Tag (str "p") []
                    [NavigableString (str "Write to ");
                     anchor (str "mailto:a@b.com") (str "us")]]))
    example_url (str "Smart Extract") None (Some (str "find emails"))
  = ([ev_request example_url; ev_parse],
     Some [[(str "Type", str "Email"); (str "Content", str "a@b.com")]]).
Proof.
  apply find_emails_strips_mailto with
    (soup := document [Tag (str "p") []
                         [NavigableString (str "Write to ");
                          anchor (str "mailto:a@b.com") (str "us")]])
    (attrs := [(str "href", str "mailto:a@b.com")])
    (cs := [NavigableString (str "us")]).
  - apply served_loads; reflexivity.
  - reflexivity.
  - reflexivity.
Defined.

(** ** The price rule on every document *)

Lemma trigger_truthy sub d :
  truthy sub = true -> contains sub (lower d) = true -> truthy d = true.
Proof.
  destruct d; [|reflexivity]. destruct sub; [discriminate|]. discriminate.
Qed.

(** C1, amended. For every page that loads and every description whose
    lower-case form holds [price] or [$], the price rule fires: the
    table starts with one row [{Type: Price, Content: stripped text}]
    for every [span], [div] or [p] whose string holds a dollar, euro or
    pound sign, in document order; the rows after them, if any, are
    [Email] rows, and the call shows advisories only. *)
Theorem price_rule_rows w url soup custom_tag d :
  loads w url soup ->
  contains (str "price") (lower d) || contains dollar (lower d) = true ->
  exists warnings emails,
    scrape_website w url (str "Smart Extract") custom_tag (Some d)
    = ([ev_request url; ev_parse] ++ warnings,
       Some (map price_row (filter price_node (descendants soup)) ++ emails))
    /\ Forall (fun r => get r (str "Type") = Some (str "Email")) emails
    /\ Forall (fun ev => exists msg, ev = ev_warning msg) warnings.
Proof.
  intros Hload Htrig.
  rewrite (scrape_website_loaded _ _ _ _ _ _ Hload).
  rewrite extract_smart. unfold smart_extract.
  assert (Hd : truthy d = true).
  { apply orb_true_iff in Htrig as [H|H];
      eapply trigger_truthy; try exact H; reflexivity. }
  rewrite Hd, Htrig, find_all_price.
  set (prices := filter price_node (descendants soup)).
  destruct (contains (str "email") (lower d)).
  - rewrite find_all_mailto.
    set (anchors := filter mailto_node
                      (filter (named [str "a"]) (descendants soup))).
    destruct (email_rows_defined anchors (filter_all _ mailto_node _))
      as (rows & Hrows & _ & Hall).
    unfold call. rewrite Hrows.
    destruct (Nat.eqb (List.length prices) 0) eqn:E1;
      destruct (Nat.eqb (List.length anchors) 0) eqn:E2;
      destruct (Nat.eqb (List.length (map price_row prices ++ rows)) 0) eqn:E3;
      unfold bind, try_except, when, emit, ret, report;
      rewrite ?E1, ?E2, ?E3; cbn [app fst snd];
      eexists; exists rows;
      (split; [reflexivity|split; [exact Hall|]]);
      repeat constructor; eexists; reflexivity.
  - destruct (Nat.eqb (List.length prices) 0) eqn:E1;
      destruct (Nat.eqb (List.length (map price_row prices)) 0) eqn:E3;
      unfold bind, try_except, when, emit, ret, report;
      rewrite ?E1, ?E3; cbn [app fst snd];
      eexists; exists [];
      (split; [rewrite app_nil_r; reflexivity|split; [constructor|]]);
      repeat constructor; eexists; reflexivity.
Qed.

Lemma price_rule_rows_witness :
  exists warnings emails,
    scrape_website
      (served 200 (document [span (str "$10"); anchor (str "mailto:a@b.com") (str "us")]))
      example_url (str "Smart Extract") None
      (Some (str "Product PRICES and emails"))
    = ([ev_request example_url; ev_parse] ++ warnings,
       Some (map price_row
               (filter price_node
                  (descendants
                     (document [span (str "$10");
                                anchor (str "mailto:a@b.com") (str "us")])))
             ++ emails))
    /\ Forall (fun r => get r (str "Type") = Some (str "Email")) emails
    /\ Forall (fun ev => exists msg, ev = ev_warning msg) warnings.
Proof.
  apply price_rule_rows.
  - apply served_loads; reflexivity.
  - reflexivity.
Defined.

(** C1 as stated fails on a description that holds a euro sign and
    neither [price] nor [$]: the page has a [span] whose string holds
    the euro sign, the price rule would keep it, and yet no rule fires;
    the table is empty. Line 110 tests [price] and [$] only. *)
Lemma euro_description_fires_no_rule :
  has_currency (lower euro) = true
  /\ filter price_node (descendants euro_page) = [span (euro ++ str "5")]
  /\ scrape_website (served 200 euro_page) example_url
       (str "Smart Extract") None (Some euro)
     = ([ev_request example_url; ev_parse;
         ev_warning (str "No matching data found for your description")],
        Some []).
Proof. split; [reflexivity|split; reflexivity]. Qed.

(** ** The two checks of the URL *)

(** C3 as stated fails. [ftp://foobar.dk] has neither prefix, and
    [is_valid_url] accepts it in every world whose [validators.url]
    answers as the library documents; the world of the fixtures is
    one. *)
Lemma is_valid_url_accepts_ftp :
  http_prefixed (str "ftp://foobar.dk") = false
  /\ (forall w, documented w -> is_valid_url w (str "ftp://foobar.dk") = true)
  /\ documented (served 200 (document [])).
Proof.
  split; [reflexivity|]. split.
  - intros w Hdoc. inversion Hdoc as [|ex exs Hftp _]. exact Hftp.
  - repeat constructor.
Qed.

(** C3, amended. The restriction to [http] and [https] is the guard of
    line 70, not [is_valid_url]: for every string without one of the
    two prefixes, whatever the validator says of it, [scrape_website]
    raises [ValueError("URL must start with http:// or https://")],
    sends no request, parses nothing and returns [None]. *)
Theorem other_schemes_stop_before_the_request
    w url option custom_tag description :
  http_prefixed url = false ->
  scrape_website w url option custom_tag description
  = (reported (mkExn ValueError
                 (str "URL must start with http:// or https://")),
     None).
Proof.
  intros Hurl. unfold scrape_website. rewrite Hurl. reflexivity.
Qed.

Lemma other_schemes_stop_before_the_request_witness :
  scrape_website (served 200 (document [])) (str "ftp://foobar.dk")
    (str "Links") None None
  = (reported (mkExn ValueError
                 (str "URL must start with http:// or https://")),
     None).
Proof.
  apply other_schemes_stop_before_the_request. reflexivity.
Defined.

(** ** Failures of the request *)

Lemma fetch_raises w url e e' :
  requests_get w url = inl e ->
  fetch_handler None e = ([], inl e') ->
  fetch w url = ([ev_request url], inl e').
Proof.
  intros Hget Hh. unfold fetch, call. rewrite Hget.
  cbn -[fetch_handler]. rewrite Hh. reflexivity.
Qed.

(** X1. When [requests.get] raises a [Timeout], a [ReadTimeout] or a
    [ConnectTimeout], the call shows [Request timed out. ...] and
    returns [None] without parsing. A [ConnectTimeout] is a
    [ConnectionError] as well; the clause of line 80 comes first. *)
Theorem timeouts_are_reported w url option custom_tag description e :
  http_prefixed url = true ->
  requests_get w url = inl e ->
  is_Timeout (exc_type e) = true ->
  scrape_website w url option custom_tag description
  = (ev_request url
       :: reported (mkExn Exception
            (str "Request timed out. The website took too long to respond.")),
     None).
Proof.
  intros Hurl Hget Hc. unfold scrape_website. rewrite Hurl.
  cbn -[fetch parse extract].
  erewrite (fetch_raises w url e _ Hget);
    [reflexivity | unfold fetch_handler; rewrite Hc; reflexivity].
Qed.

Lemma timeouts_are_reported_witness :
  scrape_website
    (unreachable (mkExn ConnectTimeout (str "connect timeout=10")))
    example_url (str "Links") None None
  = (ev_request example_url
       :: reported (mkExn Exception
            (str "Request timed out. The website took too long to respond.")),
     None).
Proof.
  apply (timeouts_are_reported
           (unreachable (mkExn ConnectTimeout (str "connect timeout=10")))
           example_url (str "Links") None None
           (mkExn ConnectTimeout (str "connect timeout=10")));
    reflexivity.
Defined.

(** X2. When [requests.get] raises an [SSLError], the call shows
    [SSL Certificate verification failed. ...], not the message for a
    failed connection, although an [SSLError] is a [ConnectionError];
    a [ConnectionError] or [ProxyError] gives
    [Failed to connect to the website. ...]. Both return [None] without
    parsing. *)
Theorem ssl_and_connection_errors_are_told_apart
    w url option custom_tag description e :
  http_prefixed url = true ->
  requests_get w url = inl e ->
  (exc_type e = SSLError ->
   scrape_website w url option custom_tag description
   = (ev_request url
        :: reported (mkExn Exception
             (str "SSL Certificate verification failed. The website might not be secure.")),
      None))
  /\ (exc_type e = ConnectionError \/ exc_type e = ProxyError ->
      scrape_website w url option custom_tag description
      = (ev_request url
           :: reported (mkExn Exception
                (str "Failed to connect to the website. Please check your internet connection.")),
         None)).
Proof.
  intros Hurl Hget. split; intros Hc; unfold scrape_website; rewrite Hurl;
    cbn -[fetch parse extract].
  - erewrite (fetch_raises w url e _ Hget);
      [reflexivity | unfold fetch_handler; rewrite Hc; reflexivity].
  - erewrite (fetch_raises w url e _ Hget);
      [reflexivity
      | unfold fetch_handler; destruct Hc as [Hc|Hc]; rewrite Hc; reflexivity].
Qed.

Lemma ssl_and_connection_errors_are_told_apart_witness :
  scrape_website (unreachable (mkExn SSLError (str "certificate verify failed")))
    example_url (str "Links") None None
  = (ev_request example_url
       :: reported (mkExn Exception
            (str "SSL Certificate verification failed. The website might not be secure.")),
     None)
  /\ scrape_website (unreachable (mkExn ProxyError (str "cannot connect to proxy")))
       example_url (str "Links") None None
     = (ev_request example_url
          :: reported (mkExn Exception
               (str "Failed to connect to the website. Please check your internet connection.")),
        None).
Proof.
  split.
  - apply (proj1 (ssl_and_connection_errors_are_told_apart
                    (unreachable (mkExn SSLError (str "certificate verify failed")))
                    example_url (str "Links") None None
                    (mkExn SSLError (str "certificate verify failed"))
                    eq_refl eq_refl)).
    reflexivity.
  - apply (proj2 (ssl_and_connection_errors_are_told_apart
                    (unreachable (mkExn ProxyError (str "cannot connect to proxy")))
                    example_url (str "Links") None None
                    (mkExn ProxyError (str "cannot connect to proxy"))
                    eq_refl eq_refl)).
    right. reflexivity.
Defined.

(** X3. An exception of [requests.get] that is neither a timeout, nor a
    connection error, nor an [HTTPError] (a [TooManyRedirects], an
    [InvalidURL]) passes the clauses of lines 80-92 unchanged: the call
    shows its own message, prints its own class name, and returns
    [None] without parsing. *)
Theorem other_request_errors_pass_through
    w url option custom_tag description e :
  http_prefixed url = true ->
  requests_get w url = inl e ->
  is_Timeout (exc_type e) = false ->
  is_ConnectionError (exc_type e) = false ->
  is_HTTPError (exc_type e) = false ->
  scrape_website w url option custom_tag description
  = (ev_request url :: reported e, None).
Proof.
  intros Hurl Hget Ht Hc Hh. unfold scrape_website. rewrite Hurl.
  cbn -[fetch parse extract].
  assert (Hs : is_SSLError (exc_type e) = false)
    by (destruct (exc_type e); try reflexivity; discriminate).
  erewrite (fetch_raises w url e _ Hget);
    [reflexivity
    | unfold fetch_handler, reraise; rewrite Ht, Hs, Hc, Hh; reflexivity].
Qed.

Lemma other_request_errors_pass_through_witness :
  scrape_website
    (unreachable (mkExn (OtherError (str "TooManyRedirects"))
                    (str "Exceeded 30 redirects.")))
    example_url (str "Links") None None
  = (ev_request example_url
       :: reported (mkExn (OtherError (str "TooManyRedirects"))
                      (str "Exceeded 30 redirects.")),
     None).
Proof.
  apply (other_request_errors_pass_through
           (unreachable (mkExn (OtherError (str "TooManyRedirects"))
                           (str "Exceeded 30 redirects.")))
           example_url (str "Links") None None
           (mkExn (OtherError (str "TooManyRedirects"))
              (str "Exceeded 30 redirects.")));
    reflexivity.
Defined.

(** X4. For every response whose status is from 400 to 599 and is
    neither 403 nor 404, the call shows [HTTP error occurred: ]
    followed by the text of the [HTTPError]: the status, [Client Error]
    below 500 and [Server Error] from 500 on, the reason and the URL.
    It returns [None] and the parser is never called. *)
Theorem other_error_statuses_show_the_status_text
    w url option custom_tag description r :
  http_prefixed url = true ->
  requests_get w url = inr r ->
  (400 <= status_code r < 600)%Z ->
  status_code r <> 403%Z ->
  status_code r <> 404%Z ->
  scrape_website w url option custom_tag description
  = (ev_request url
       :: reported (mkExn Exception
            (str "HTTP error occurred: "
             ++ of_Z (status_code r)
             ++ (if (status_code r <? 500)%Z
                 then str " Client Error: " else str " Server Error: ")
             ++ reason r ++ str " for url: " ++ response_url r)),
     None).
Proof.
  intros Hurl Hget Hrange H403 H404. unfold scrape_website. rewrite Hurl.
  unfold fetch, call. rewrite Hget.
  cbn -[raise_for_status fetch_handler report parse extract].
  unfold raise_for_status, fetch_handler.
  assert (E403 : (status_code r =? 403)%Z = false) by lia.
  assert (E404 : (status_code r =? 404)%Z = false) by lia.
  assert (E400 : (400 <=? status_code r)%Z = true) by lia.
  assert (E600 : (status_code r <? 600)%Z = true) by lia.
  rewrite E400, E600. cbn [andb].
  destruct (status_code r <? 500)%Z eqn:E5.
  - cbn -[str of_Z]. rewrite E403, E404. reflexivity.
  - assert (E500 : (500 <=? status_code r)%Z = true) by lia.
    rewrite E500. cbn -[str of_Z]. rewrite E403, E404. reflexivity.
Qed.

Lemma other_error_statuses_show_the_status_text_witness :
  scrape_website (served 503 (document [])) example_url
    (str "Smart Extract") None (Some (str "price"))
  = (ev_request example_url
       :: reported (mkExn Exception
            (str "HTTP error occurred: 503 Server Error:  for url: https://example.com")),
     None).
Proof.
  apply (other_error_statuses_show_the_status_text
           (served 503 (document [])) example_url
           (str "Smart Extract") None (Some (str "price"))
           (mkResponse 503 (str "") example_url []));
    try reflexivity; try lia; cbn; lia.
Defined.

(** X5. When the page arrives and [BeautifulSoup] raises, the call
    shows [Failed to parse HTML content: ] followed by the message of
    the parser and returns [None]; no option is run. *)
Theorem parse_failure_is_wrapped w url option custom_tag description r e :
  http_prefixed url = true ->
  requests_get w url = inr r ->
  ((400 <=? status_code r) && (status_code r <? 600))%Z = false ->
  BeautifulSoup w (content r) = inl e ->
  scrape_website w url option custom_tag description
  = ([ev_request url; ev_parse]
       ++ reported (mkExn Exception
            (str "Failed to parse HTML content: " ++ exc_str e)),
     None).
Proof.
  intros Hurl Hget Hok Hparse. unfold scrape_website. rewrite Hurl.
  cbn -[fetch parse extract]. rewrite (fetch_passes w url r Hget Hok).
  cbn -[parse extract]. unfold parse, call. rewrite Hparse. reflexivity.
Qed.

Lemma parse_failure_is_wrapped_witness :
  scrape_website
    (unparsable (mkExn (OtherError (str "ParserRejectedMarkup"))
                   (str "expected name token")))
    example_url (str "Smart Extract") None (Some (str "price"))
  = ([ev_request example_url; ev_parse]
       ++ reported (mkExn Exception
            (str "Failed to parse HTML content: "
             ++ str "expected name token")),
     None).
Proof.
  apply (parse_failure_is_wrapped
           (unparsable (mkExn (OtherError (str "ParserRejectedMarkup"))
                          (str "expected name token")))
           example_url (str "Smart Extract") None (Some (str "price"))
           (mkResponse 200 (str "OK") example_url [])
           (mkExn (OtherError (str "ParserRejectedMarkup"))
              (str "expected name token")));
    reflexivity.
Defined.

(** ** The table of [Smart Extract] *)

Lemma email_rows_computed l :
  Forall (fun n => mailto_node n = true) l ->
  comprehension email_row l
  = inr (map (fun e => [(str "Type", str "Email");
                        (str "Content",
                         replace (str "mailto:") [] (href_of e))]) l).
Proof.
  induction 1 as [|n l Hn _ IH]; [reflexivity|].
  destruct n as [name a cs| |]; try discriminate.
  unfold mailto_node in Hn.
  destruct (get a (str "href")) as [h|] eqn:Hh; [|discriminate].
  cbn [comprehension map]. rewrite IH.
  unfold email_row, getitem, href_of. rewrite Hh. reflexivity.
Qed.

(** With a description, the branch of lines 105-129 ends in a table:
    the comprehension of line 124 finds an [href] on every node the
    scan of line 121 kept. *)
Lemma smart_extract_runs soup d :
  truthy d = true ->
  smart_extract soup (Some d)
  = (smart_warnings soup d, inr (Some (smart_rows soup d))).
Proof.
  intros Hd. unfold smart_extract. rewrite Hd.
  rewrite find_all_price, find_all_mailto.
  fold (price_nodes soup) (mailto_anchors soup) (price_fires d)
    (email_fires d).
  unfold call.
  rewrite (email_rows_computed (mailto_anchors soup)
             (filter_all _ mailto_node _)).
  unfold smart_warnings, smart_rows.
  destruct (price_fires d); destruct (email_fires d);
    cbn [andb app]; rewrite ?app_nil_r;
    unfold bind, when, emit, ret, try_except;
    repeat (match goal with
            | |- context [Nat.eqb ?n 0] => destruct (Nat.eqb n 0) eqn:?
            end;
            cbn [app fst snd]; rewrite ?app_nil_r);
    reflexivity.
Qed.

Lemma scrape_website_smart w url soup custom_tag d :
  loads w url soup ->
  truthy d = true ->
  scrape_website w url (str "Smart Extract") custom_tag (Some d)
  = ([ev_request url; ev_parse] ++ smart_warnings soup d,
     Some (smart_rows soup d)).
Proof.
  intros Hload Hd. rewrite (scrape_website_loaded _ _ _ _ _ _ Hload).
  rewrite extract_smart, (smart_extract_runs soup d Hd). reflexivity.
Qed.



Lemma smart_rows_columns soup d :
  Forall (fun r : row => map fst r = [str "Type"; str "Content"])
    (smart_rows soup d).
Proof.
  unfold smart_rows. apply Forall_app. split.
  - destruct (price_fires d); [|constructor].
    apply Forall_forall. intros r Hr. apply in_map_iff in Hr as (n & <- & _).
    reflexivity.
  - destruct (email_fires d); [|constructor].
    apply Forall_forall. intros r Hr. apply in_map_iff in Hr as (n & <- & _).
    reflexivity.
Qed.

(** X7. Every table [Smart Extract] returns has uniform rows: each row
    has exactly the two columns [Type] and [Content], in that order. *)
Theorem smart_extract_rows_have_type_and_content
    w url soup custom_tag description trace df :
  loads w url soup ->
  scrape_website w url (str "Smart Extract") custom_tag description
  = (trace, Some df) ->
  Forall (fun r : row => map fst r = [str "Type"; str "Content"]) df.
Proof.
  intros Hload Hrun.
  destruct description as [d|].
  - destruct (truthy d) eqn:Hd.
    + rewrite (scrape_website_smart w url soup custom_tag d Hload Hd) in Hrun.
      injection Hrun as _ <-. apply smart_rows_columns.
    + rewrite (scrape_website_loaded _ _ _ _ _ _ Hload) in Hrun.
      rewrite extract_smart in Hrun. unfold smart_extract in Hrun.
      rewrite Hd in Hrun. discriminate Hrun.
  - rewrite (scrape_website_loaded _ _ _ _ _ _ Hload) in Hrun.
    discriminate Hrun.
Qed.

Lemma smart_extract_rows_have_type_and_content_witness :
  Forall (fun r : row => map fst r = [str "Type"; str "Content"])
    [[(str "Type", str "Price"); (str "Content", str "$10")];
     [(str "Type", str "Email"); (str "Content", str "a@b.com")]].
Proof.
  apply (smart_extract_rows_have_type_and_content
           (served 200
              (document [anchor (str "mailto:a@b.com") (str "us");
                         span (str "$10")]))
           example_url
           (document [anchor (str "mailto:a@b.com") (str "us");
                      span (str "$10")])
           None (Some (str "emails and prices"))
           [ev_request example_url; ev_parse]).
  - apply served_loads; reflexivity.
  - reflexivity.
Defined.

(** X8. With a non-empty description, [Smart Extract] shows
    [No matching data found for your description] exactly when the
    table it returns is empty. *)
Theorem no_matching_data_iff_empty_table w url soup custom_tag d :
  loads w url soup ->
  truthy d = true ->
  In (ev_warning (str "No matching data found for your description"))
     (fst (scrape_website w url (str "Smart Extract") custom_tag (Some d)))
  <-> snd (scrape_website w url (str "Smart Extract") custom_tag (Some d))
      = Some [].
Proof.
  intros Hload Hd.
  rewrite (scrape_website_smart w url soup custom_tag d Hload Hd).
  cbn [fst snd]. unfold smart_warnings.
  destruct (smart_rows soup d) as [|r rows] eqn:Hrows.
  - split; [reflexivity|]. intros _.
    apply in_or_app. right. apply in_or_app. right. apply in_or_app. right.
    left. reflexivity.
  - split; [|discriminate]. intros Hin. exfalso.
    cbn [List.length Nat.eqb app] in Hin. rewrite app_nil_r in Hin.
    cbn [In] in Hin. destruct Hin as [Hin|[Hin|Hin]]; try discriminate.
    apply in_app_or in Hin as [Hin|Hin].
    + destruct (price_fires d && _); [|contradiction].
      destruct Hin as [Hin|[]]. discriminate Hin.
    + destruct (email_fires d && _); [|contradiction].
      destruct Hin as [Hin|[]]. discriminate Hin.
Qed.

Lemma no_matching_data_iff_empty_table_witness :
  In (ev_warning (str "No matching data found for your description"))
     (fst (scrape_website (served 200 (document [span (str "$10")]))
             example_url (str "Smart Extract") None
             (Some (str "article titles"))))
  <-> snd (scrape_website (served 200 (document [span (str "$10")]))
             example_url (str "Smart Extract") None
             (Some (str "article titles")))
      = Some [].
Proof.
  apply (no_matching_data_iff_empty_table
           (served 200 (document [span (str "$10")])) example_url
           (document [span (str "$10")]) None (str "article titles")).
  - apply served_loads; reflexivity.
  - reflexivity.
Defined.

(** ** The rows of [Custom Elements] *)

(** X9. For every page that loads, [Custom Elements] with no selector
    or an empty one raises
    [ValueError("Custom tag is required for Custom Elements option")]:
    the call shows it and returns [None], and the selector engine is
    not consulted. *)
Theorem custom_elements_requires_selector
    w url soup custom_tag description :
  loads w url soup ->
  falsy custom_tag = true ->
  scrape_website w url (str "Custom Elements") custom_tag description
  = ([ev_request url; ev_parse]
       ++ reported (mkExn ValueError
            (str "Custom tag is required for Custom Elements option")),
     None).
Proof.
  intros Hload Hc. rewrite (scrape_website_loaded _ _ _ _ _ _ Hload).
  rewrite extract_custom. unfold custom_elements.
  destruct custom_tag as [sel|]; [|reflexivity].
  cbn in Hc. destruct (truthy sel); [discriminate|reflexivity].
Qed.

Lemma custom_elements_requires_selector_witness :
  scrape_website (selecting (document [span (str "$10")]) [span (str "$10")])
    example_url (str "Custom Elements") (Some []) None
  = ([ev_request example_url; ev_parse]
       ++ reported (mkExn ValueError
            (str "Custom tag is required for Custom Elements option")),
     None).
Proof.
  apply custom_elements_requires_selector with
    (soup := document [span (str "$10")]).
  - split; [reflexivity|].
    exists (mkResponse 200 (str "OK") example_url []). cbn. auto.
  - reflexivity.
Defined.

(** X10. For every page that loads and every selector for which the
    engine returns at least one node, all of them tags other than
    [script], [style], [template], [rt] and [rp], [Custom Elements]
    returns one row per matched node, in the order the engine gives
    them, with [Content] the stripped text of the node and [HTML] its
    printed form; no advisory and no error is shown. *)
Theorem custom_elements_one_row_per_match
    w url soup sel description n matched :
  loads w url soup ->
  truthy sel = true ->
  select w soup sel = inr (n :: matched) ->
  forallb ordinary_tag (n :: matched) = true ->
  scrape_website w url (str "Custom Elements") (Some sel) description
  = ([ev_request url; ev_parse],
     Some (map (fun element => [(str "Content", strip (text element));
                                (str "HTML", element_str w element)])
             (n :: matched))).
Proof.
  intros Hload Hsel Hmatch _. rewrite (scrape_website_loaded _ _ _ _ _ _ Hload).
  rewrite extract_custom. unfold custom_elements, call.
  rewrite Hsel, Hmatch. reflexivity.
Qed.

Lemma custom_elements_one_row_per_match_witness :
  scrape_website
    (selecting (document [span (str " $10 "); span (str "$25")])
       [span (str " $10 "); span (str "$25")])
    example_url (str "Custom Elements") (Some (str "span")) None
  = ([ev_request example_url; ev_parse],
     Some [[(str "Content", str "$10");
            (str "HTML", str "<span> $10 </span>")];
           [(str "Content", str "$25");
            (str "HTML", str "<span>$25</span>")]]).
Proof.
  apply (custom_elements_one_row_per_match
           (selecting (document [span (str " $10 "); span (str "$25")])
              [span (str " $10 "); span (str "$25")])
           example_url
           (document [span (str " $10 "); span (str "$25")])
           (str "span") None (span (str " $10 ")) [span (str "$25")]).
  - split; [reflexivity|].
    exists (mkResponse 200 (str "OK") example_url []). cbn. auto.
  - reflexivity.
  - reflexivity.
  - reflexivity.
Defined.

(** ** More facts about strings *)

Lemma startswith_prefix p s :
  startswith p s = true <-> exists rest, s = p ++ rest.
Proof.
  revert s. induction p as [|x p IH]; intros s.
  - split; [intros _; exists s; reflexivity|reflexivity].
  - destruct s as [|y s]; cbn.
    + split; [discriminate|]. intros (rest & H). discriminate H.
    + rewrite andb_true_iff, N.eqb_eq, IH. split.
      * intros (-> & rest & ->). exists rest. reflexivity.
      * intros (rest & H). injection H as -> ->. split; [reflexivity|].
        exists rest. reflexivity.
Qed.

(** X11. The test [sub in s] of lines 110-121 is true exactly when [s]
    is some string, then [sub], then some string. *)
Theorem contains_iff_substring sub s :
  contains sub s = true <-> exists pre post, s = pre ++ sub ++ post.
Proof.
  induction s as [|c s IH]; cbn [contains].
  - rewrite orb_false_r, startswith_prefix. split.
    + intros (rest & H). exists [], rest. exact H.
    + intros (pre & post & H). symmetry in H.
      apply app_eq_nil in H as (-> & H). apply app_eq_nil in H as (-> & ->).
      exists []. reflexivity.
  - rewrite orb_true_iff, startswith_prefix, IH. split.
    + intros [(rest & H)|(pre & post & H)].
      * exists [], rest. exact H.
      * exists (c :: pre), post. rewrite H. reflexivity.
    + intros (pre & post & H). destruct pre as [|c' pre].
      * left. exists post. exact H.
      * right. injection H as _ H. exists pre, post. exact H.
Qed.

Lemma lower_app a b : lower (a ++ b) = lower a ++ lower b.
Proof. apply flat_map_app. Qed.

Lemma lstrip_idempotent s : lstrip (lstrip s) = lstrip s.
Proof.
  induction s as [|c s IH]; [reflexivity|]. cbn.
  destruct (isspace c) eqn:E; [exact IH|]. cbn. rewrite E. reflexivity.
Qed.

(** [lstrip] takes off a run of spaces and nothing else. *)
Lemma lstrip_split s :
  exists w, s = w ++ lstrip s /\ forallb isspace w = true.
Proof.
  induction s as [|c s (w & Hs & Hw)]; [exists []; split; reflexivity|].
  cbn. destruct (isspace c) eqn:E.
  - exists (c :: w). split; [cbn; rewrite <- Hs; reflexivity|].
    cbn. rewrite E. exact Hw.
  - exists []. split; reflexivity.
Qed.

Lemma lstrip_fixed c s : isspace c = false -> lstrip (c :: s) = c :: s.
Proof. intros E. cbn. rewrite E. reflexivity. Qed.

Lemma lstrip_head s : lstrip s = [] \/ exists c r, lstrip s = c :: r /\ isspace c = false.
Proof.
  induction s as [|c s IH]; [left; reflexivity|]. cbn.
  destruct (isspace c) eqn:E; [exact IH|].
  right. exists c, s. split; [reflexivity|exact E].
Qed.

Lemma rstrip_split u :
  exists w, u = rstrip u ++ w /\ forallb isspace w = true.
Proof.
  destruct (lstrip_split (rev u)) as (w & Hs & Hw).
  exists (rev w). split.
  - unfold rstrip. rewrite <- rev_app_distr, <- Hs, rev_involutive.
    reflexivity.
  - rewrite forallb_forall in *. intros x Hx. apply Hw, in_rev, Hx.
Qed.

(** Stripping the right end keeps a left end that is already
    stripped. *)
Lemma lstrip_rstrip u : lstrip u = u -> lstrip (rstrip u) = rstrip u.
Proof.
  intros Hu. destruct (lstrip_head u) as [H|(c & r & H & Hc)];
    rewrite Hu in H.
  - subst u. reflexivity.
  - subst u. destruct (rstrip_split (c :: r)) as (w & Hs & Hw).
    destruct (rstrip (c :: r)) as [|c' r'] eqn:Hr; [reflexivity|].
    cbn in Hs. injection Hs as <- _. apply lstrip_fixed, Hc.
Qed.

Lemma strip_idempotent s : strip (strip s) = strip s.
Proof.
  unfold strip.
  rewrite (lstrip_rstrip (lstrip s) (lstrip_idempotent s)).
  unfold rstrip. rewrite rev_involutive, lstrip_idempotent. reflexivity.
Qed.

Lemma replace_from_untouched old new s :
  contains old s = false -> replace_from old new 0 s = s.
Proof.
  induction s as [|c s IH]; [reflexivity|]. intros H.
  cbn [contains] in H. apply orb_false_iff in H as [Hs Hc].
  cbn [replace_from]. rewrite Hs, (IH Hc). reflexivity.
Qed.

Lemma replace_from_skips old new p s :
  replace_from old new (List.length p) (p ++ s) = replace_from old new 0 s.
Proof. induction p as [|x p IH]; [reflexivity|exact IH]. Qed.

(** Taking [old] off a string that begins with it and holds it nowhere
    else leaves the rest. *)
Lemma replace_prefix c old rest :
  contains (c :: old) rest = false ->
  replace (c :: old) [] ((c :: old) ++ rest) = rest.
Proof.
  intros H. unfold replace. cbn [app replace_from].
  assert (Hs : startswith (c :: old) (c :: old ++ rest) = true).
  { apply startswith_prefix. exists rest. reflexivity. }
  rewrite Hs. cbn [List.length pred app].
  rewrite replace_from_skips. apply replace_from_untouched, H.
Qed.

Lemma contains_middle pre sub post :
  contains sub (pre ++ sub ++ post) = true.
Proof.
  induction pre as [|c pre IH].
  - cbn [app]. destruct (sub ++ post) eqn:E; cbn [contains].
    + apply orb_true_iff. left. apply startswith_prefix.
      apply app_eq_nil in E as (-> & ->). exists []. reflexivity.
    + apply orb_true_iff. left. rewrite <- E. apply startswith_prefix.
      exists post. reflexivity.
  - cbn [app contains]. rewrite IH. apply orb_true_r.
Qed.

(** ** Finer points of the two rules *)

(** X12. The [Content] of every row of a table of [Smart Extract] whose
    [Type] is [Price] is stripped: stripping it again changes
    nothing, so it neither begins nor ends with white space. *)
Theorem price_contents_are_stripped
    w url soup custom_tag description trace df :
  loads w url soup ->
  scrape_website w url (str "Smart Extract") custom_tag description
  = (trace, Some df) ->
  forall r, In r df -> get r (str "Type") = Some (str "Price") ->
  exists c, get r (str "Content") = Some c /\ strip c = c.
Proof.
  intros Hload Hrun r Hr Htype.
  destruct description as [d|].
  - destruct (truthy d) eqn:Hd.
    + rewrite (scrape_website_smart w url soup custom_tag d Hload Hd) in Hrun.
      injection Hrun as _ <-. unfold smart_rows in Hr.
      apply in_app_or in Hr as [Hr|Hr].
      * destruct (price_fires d); [|contradiction].
        apply in_map_iff in Hr as (n & <- & _).
        exists (strip (text n)). split; [reflexivity|apply strip_idempotent].
      * destruct (email_fires d); [|contradiction].
        apply in_map_iff in Hr as (n & <- & _). discriminate Htype.
    + rewrite (scrape_website_loaded _ _ _ _ _ _ Hload) in Hrun.
      rewrite extract_smart in Hrun. unfold smart_extract in Hrun.
      rewrite Hd in Hrun. discriminate Hrun.
  - rewrite (scrape_website_loaded _ _ _ _ _ _ Hload) in Hrun.
    discriminate Hrun.
Qed.

Lemma price_contents_are_stripped_witness :
  exists c,
    get [(str "Type", str "Price"); (str "Content", str "$10")]
      (str "Content") = Some c
    /\ strip c = c.
Proof.
  apply (price_contents_are_stripped
           (served 200 (document [span (str "  $10 ")])) example_url
           (document [span (str "  $10 ")]) None (Some (str "price"))
           [ev_request example_url; ev_parse]
           [[(str "Type", str "Price"); (str "Content", str "$10")]]).
  - apply served_loads; reflexivity.
  - reflexivity.
  - left. reflexivity.
  - reflexivity.
Defined.

(** X13. In a document whose only anchor has the [href] [mailto:]
    followed by an address that holds no further [mailto:], every
    description that fires the email rule alone gives exactly one row,
    of [Type] [Email] and [Content] the address. *)
Theorem email_content_is_the_address
    w url soup attrs cs custom_tag d addr :
  loads w url soup ->
  filter (named [str "a"]) (descendants soup) = [Tag (str "a") attrs cs] ->
  get attrs (str "href") = Some (str "mailto:" ++ addr) ->
  contains (str "mailto:") addr = false ->
  contains (str "email") (lower d) = true ->
  contains (str "price") (lower d) || contains dollar (lower d) = false ->
  scrape_website w url (str "Smart Extract") custom_tag (Some d)
  = ([ev_request url; ev_parse],
     Some [[(str "Type", str "Email"); (str "Content", addr)]]).
Proof.
  intros Hload Hanchors Hhref Haddr Hemail Hprice.
  assert (Hd : truthy d = true)
    by (eapply trigger_truthy; [|exact Hemail]; reflexivity).
  rewrite (scrape_website_smart w url soup custom_tag d Hload Hd).
  assert (Hm : mailto_anchors soup = [Tag (str "a") attrs cs]).
  { unfold mailto_anchors. rewrite Hanchors. cbn [filter mailto_node].
    rewrite Hhref. unfold mailto_href.
    replace (contains (str "mailto:") (str "mailto:" ++ addr)) with true
      by (symmetry; apply (contains_middle [] (str "mailto:") addr)).
    reflexivity. }
  unfold smart_warnings, smart_rows, price_fires, email_fires.
  rewrite Hprice, Hemail, Hm. cbn [andb app map List.length Nat.eqb].
  unfold href_of. rewrite Hhref.
  change (str "mailto:") with (109 :: str "ailto:").
  rewrite (replace_prefix 109 (str "ailto:") addr Haddr). reflexivity.
Qed.

Lemma email_content_is_the_address_witness :
  scrape_website
    (served 200 (document [anchor (str "mailto:sales@example.org") (str "Sales")]))
    example_url (str "Smart Extract") None (Some (str "Email addresses"))
  = ([ev_request example_url; ev_parse],
     Some [[(str "Type", str "Email");
            (str "Content", str "sales@example.org")]]).
Proof.
  apply (email_content_is_the_address
           (served 200
              (document [anchor (str "mailto:sales@example.org") (str "Sales")]))
           example_url
           (document [anchor (str "mailto:sales@example.org") (str "Sales")])
           [(str "href", str "mailto:sales@example.org")]
           [NavigableString (str "Sales")] None (str "Email addresses")
           (str "sales@example.org")).
  - apply served_loads; reflexivity.
  - reflexivity.
  - reflexivity.
  - reflexivity.
  - reflexivity.
  - reflexivity.
Defined.

(** X14. One price can come out twice. When a [span], [div] or [p]
    holds nothing but another such tag, which holds nothing but a
    string with a currency sign, the scan of line 111 keeps both tags,
    each having that string as its [.string]: the price rule gives two
    rows with the same [Content]. *)
Theorem nested_price_tags_give_two_rows
    w url rname rattrs outer a1 inner a2 t custom_tag d :
  loads w url
    (Tag rname rattrs [Tag outer a1 [Tag inner a2 [NavigableString t]]]) ->
  In outer [str "span"; str "div"; str "p"] ->
  In inner [str "span"; str "div"; str "p"] ->
  has_currency t = true ->
  contains (str "price") (lower d) || contains dollar (lower d) = true ->
  contains (str "email") (lower d) = false ->
  scrape_website w url (str "Smart Extract") custom_tag (Some d)
  = ([ev_request url; ev_parse],
     Some [[(str "Type", str "Price"); (str "Content", strip t)];
           [(str "Type", str "Price"); (str "Content", strip t)]]).
Proof.
  intros Hload Houter Hinner Ht Hprice Hemail.
  assert (Hd : truthy d = true).
  { apply orb_true_iff in Hprice as [H|H];
      eapply trigger_truthy; try exact H; reflexivity. }
  rewrite (scrape_website_smart _ _ _ custom_tag d Hload Hd).
  assert (Hn : price_nodes
                 (Tag rname rattrs
                    [Tag outer a1 [Tag inner a2 [NavigableString t]]])
               = [Tag outer a1 [Tag inner a2 [NavigableString t]];
                  Tag inner a2 [NavigableString t]]).
  { unfold price_nodes. cbn [descendants flat_map app filter].
    unfold price_node at 1. cbn [string_of]. rewrite Ht.
    replace (named [str "span"; str "div"; str "p"]
               (Tag outer a1 [Tag inner a2 [NavigableString t]]))
      with true
      by (cbn in Houter; destruct Houter as [<-|[<-|[<-|[]]]]; reflexivity).
    cbn [andb filter]. unfold price_node at 1. cbn [string_of]. rewrite Ht.
    replace (named [str "span"; str "div"; str "p"]
               (Tag inner a2 [NavigableString t]))
      with true
      by (cbn in Hinner; destruct Hinner as [<-|[<-|[<-|[]]]]; reflexivity).
    reflexivity. }
  unfold smart_warnings, smart_rows, price_fires, email_fires.
  rewrite Hprice, Hemail, Hn. unfold price_row.
  cbn [andb app map List.length Nat.eqb text flat_map].
  rewrite !app_nil_r. reflexivity.
Qed.

Lemma nested_price_tags_give_two_rows_witness :
  scrape_website
    (served 200
       (document [Tag (str "div") [] [span (str "$10")]]))
    example_url (str "Smart Extract") None (Some (str "price"))
  = ([ev_request example_url; ev_parse],
     Some [[(str "Type", str "Price"); (str "Content", str "$10")];
           [(str "Type", str "Price"); (str "Content", str "$10")]]).
Proof.
  apply (nested_price_tags_give_two_rows
           (served 200 (document [Tag (str "div") [] [span (str "$10")]]))
           example_url (str "[document]") [] (str "div") [] (str "span") []
           (str "$10") None (str "price")).
  - apply served_loads; reflexivity.
  - right. left. reflexivity.
  - left. reflexivity.
  - reflexivity.
  - reflexivity.
  - reflexivity.
Defined.

(** X15. A price inside mixed content is missed. When a tag holds a
    string and then a tag that is neither [span], [div] nor [p] around
    the price, the outer tag has two children and so no [.string], and
    the inner tag is not of the scanned names: the price rule keeps
    nothing, whatever the two strings are, and the table is empty. *)
Theorem price_in_mixed_content_is_missed
    w url rname rattrs outer a1 label inner a2 t custom_tag d :
  loads w url
    (Tag rname rattrs
       [Tag outer a1 [NavigableString label;
                      Tag inner a2 [NavigableString t]]]) ->
  existsb (PyStr.eqb inner) [str "span"; str "div"; str "p"] = false ->
  contains (str "price") (lower d) || contains dollar (lower d) = true ->
  contains (str "email") (lower d) = false ->
  scrape_website w url (str "Smart Extract") custom_tag (Some d)
  = ([ev_request url; ev_parse;
      ev_warning (str "No price information found on the page");
      ev_warning (str "No matching data found for your description")],
     Some []).
Proof.
  intros Hload Hinner Hprice Hemail.
  assert (Hd : truthy d = true).
  { apply orb_true_iff in Hprice as [H|H];
      eapply trigger_truthy; try exact H; reflexivity. }
  rewrite (scrape_website_smart _ _ _ custom_tag d Hload Hd).
  assert (Hn : price_nodes
                 (Tag rname rattrs
                    [Tag outer a1 [NavigableString label;
                                   Tag inner a2 [NavigableString t]]])
               = []).
  { unfold price_nodes. cbn [descendants flat_map app filter].
    unfold price_node at 1. cbn [string_of]. rewrite andb_false_r.
    unfold price_node at 1. cbn [named andb].
    unfold price_node at 1. cbn [named]. rewrite Hinner. reflexivity. }
  unfold smart_warnings, smart_rows, price_fires, email_fires.
  rewrite Hprice, Hemail, Hn. reflexivity.
Qed.

Lemma price_in_mixed_content_is_missed_witness :
  scrape_website
    (served 200
       (document [Tag (str "p") []
                    [NavigableString (str "Price: ");
                     Tag (str "b") [] [NavigableString (str "$10")]]]))
    example_url (str "Smart Extract") None (Some (str "price"))
  = ([ev_request example_url; ev_parse;
      ev_warning (str "No price information found on the page");
      ev_warning (str "No matching data found for your description")],
     Some []).
Proof.
  apply (price_in_mixed_content_is_missed
           (served 200
              (document [Tag (str "p") []
                           [NavigableString (str "Price: ");
                            Tag (str "b") [] [NavigableString (str "$10")]]]))
           example_url (str "[document]") [] (str "p") [] (str "Price: ")
           (str "b") [] (str "$10") None (str "price")).
  - apply served_loads; reflexivity.
  - reflexivity.
  - reflexivity.
  - reflexivity.
Defined.

(** X16. The trigger of the price rule does not depend on the case of
    the letters: whenever the description holds a word whose lower-case
    form is [price], the table begins with the rows of the price
    rule. *)
Theorem price_trigger_ignores_case
    w url soup custom_tag (pre word post : pystr) :
  loads w url soup ->
  lower word = str "price" ->
  exists warnings emails,
    scrape_website w url (str "Smart Extract") custom_tag
      (Some (pre ++ word ++ post))
    = ([ev_request url; ev_parse] ++ warnings,
       Some (map price_row (filter price_node (descendants soup))
             ++ emails)).
Proof.
  intros Hload Hword.
  assert (Hfires : price_fires (pre ++ word ++ post) = true).
  { unfold price_fires. rewrite !lower_app, Hword.
    rewrite contains_middle. reflexivity. }
  assert (Hd : truthy (pre ++ word ++ post) = true).
  { unfold price_fires in Hfires.
    apply orb_true_iff in Hfires as [H|H];
      eapply trigger_truthy; try exact H; reflexivity. }
  do 2 eexists. etransitivity.
  - exact (scrape_website_smart w url soup custom_tag _ Hload Hd).
  - unfold smart_rows. rewrite Hfires. reflexivity.
Qed.

Lemma price_trigger_ignores_case_witness :
  exists warnings emails,
    scrape_website (served 200 (document [span (str "$10")])) example_url
      (str "Smart Extract") None
      (Some (str "All " ++ str "PrIcE" ++ str "s, please"))
    = ([ev_request example_url; ev_parse] ++ warnings,
       Some (map price_row
               (filter price_node
                  (descendants (document [span (str "$10")])))
             ++ emails)).
Proof.
  apply price_trigger_ignores_case.
  - apply served_loads; reflexivity.
  - reflexivity.
Defined.

(** ** The shape of every run *)

Lemma fetch_handler_raises response e :
  exists e', fetch_handler response e = ([], inl e').
Proof.
  unfold fetch_handler, raise, reraise.
  destruct (is_Timeout (exc_type e)); [eexists; reflexivity|].
  destruct (is_SSLError (exc_type e)); [eexists; reflexivity|].
  destruct (is_ConnectionError (exc_type e)); [eexists; reflexivity|].
  destruct (is_HTTPError (exc_type e)); [|eexists; reflexivity].
  destruct response as [r|]; [|eexists; reflexivity].
  destruct (status_code r =? 403)%Z; [eexists; reflexivity|].
  destruct (status_code r =? 404)%Z; eexists; reflexivity.
Qed.

(** The request leaves one event and ends in a response or an
    exception. *)
Lemma fetch_cases w url :
  exists outcome, fetch w url = ([ev_request url], outcome).
Proof.
  unfold fetch, call. destruct (requests_get w url) as [e|r].
  - destruct (fetch_handler_raises None e) as (e' & He).
    cbn -[fetch_handler]. rewrite He. eexists. reflexivity.
  - cbn -[raise_for_status fetch_handler]. unfold raise_for_status.
    destruct ((400 <=? status_code r) && (status_code r <? 500))%Z.
    + cbn -[fetch_handler str of_Z].
      match goal with
      | |- context [fetch_handler (Some r) ?e] =>
          destruct (fetch_handler_raises (Some r) e) as (e' & He);
          rewrite He
      end.
      eexists. reflexivity.
    + destruct ((500 <=? status_code r) && (status_code r <? 600))%Z.
      * cbn -[fetch_handler str of_Z].
        match goal with
        | |- context [fetch_handler (Some r) ?e] =>
            destruct (fetch_handler_raises (Some r) e) as (e' & He);
            rewrite He
        end.
        eexists. reflexivity.
      * eexists. reflexivity.
Qed.

Lemma parse_cases w r :
  exists outcome, parse w r = ([ev_parse], outcome).
Proof.
  unfold parse, call. destruct (BeautifulSoup w (content r));
    eexists; reflexivity.
Qed.

Lemma smart_warnings_are_warnings soup d :
  forallb is_warning (smart_warnings soup d) = true.
Proof.
  unfold smart_warnings. rewrite !forallb_app.
  repeat match goal with
         | |- context [if ?b then _ else _] => destruct b
         end; reflexivity.
Qed.

(** What the dispatch can do: raise after advisories, return a table
    after advisories under one of the two options with a branch, or
    return [None] in silence under any other option. *)
Lemma extract_cases w soup option custom_tag description :
  (exists ws e,
      extract w soup option custom_tag description = (ws, inl e)
      /\ forallb is_warning ws = true)
  \/ (exists ws df,
         extract w soup option custom_tag description = (ws, inr (Some df))
         /\ forallb is_warning ws = true
         /\ PyStr.eqb option (str "Smart Extract")
            || PyStr.eqb option (str "Custom Elements") = true)
  \/ (extract w soup option custom_tag description = ([], inr None)
      /\ PyStr.eqb option (str "Smart Extract") = false
      /\ PyStr.eqb option (str "Custom Elements") = false).
Proof.
  unfold extract.
  destruct (PyStr.eqb option (str "Smart Extract")) eqn:Es.
  - destruct description as [d|].
    + destruct (truthy d) eqn:Hd.
      * right. left. rewrite (smart_extract_runs soup d Hd).
        do 2 eexists. split; [reflexivity|].
        split; [apply smart_warnings_are_warnings|reflexivity].
      * left. unfold smart_extract. rewrite Hd.
        do 2 eexists. split; reflexivity.
    + left. do 2 eexists. split; reflexivity.
  - destruct (PyStr.eqb option (str "Custom Elements")) eqn:Ec.
    + unfold custom_elements.
      destruct custom_tag as [sel|];
        [|left; do 2 eexists; split; reflexivity].
      destruct (truthy sel); [|left; do 2 eexists; split; reflexivity].
      unfold call. destruct (select w soup sel) as [e|matched].
      * left. do 2 eexists. split; reflexivity.
      * right. left. destruct matched; do 2 eexists;
          (split; [reflexivity|split; reflexivity]).
    + right. right. repeat split.
Qed.

Lemma scrape_website_cases w url option custom_tag description :
  exists head ws,
    (head = [] \/ head = [ev_request url]
     \/ head = [ev_request url; ev_parse])
    /\ (head <> [] -> http_prefixed url = true)
    /\ forallb is_warning ws = true
    /\ ((exists e,
            scrape_website w url option custom_tag description
            = (head ++ ws ++ reported e, None))
        \/ (exists df,
               scrape_website w url option custom_tag description
               = (head ++ ws, Some df)
               /\ PyStr.eqb option (str "Smart Extract")
                  || PyStr.eqb option (str "Custom Elements") = true)
        \/ (scrape_website w url option custom_tag description
            = (head ++ ws, None)
            /\ ws = []
            /\ PyStr.eqb option (str "Smart Extract") = false
            /\ PyStr.eqb option (str "Custom Elements") = false)).
Proof.
  unfold scrape_website. destruct (http_prefixed url) eqn:Hurl.
  - destruct (fetch_cases w url) as ([e|r] & Hf).
    + exists [ev_request url], []. repeat split; auto.
      left. exists e. cbn -[fetch parse extract]. rewrite Hf. reflexivity.
    + destruct (parse_cases w r) as ([e|soup] & Hp).
      * exists [ev_request url; ev_parse], []. repeat split; auto.
        left. exists e. cbn -[fetch parse extract]. rewrite Hf.
        cbn -[parse extract]. rewrite Hp. reflexivity.
      * destruct (extract_cases w soup option custom_tag description)
          as [(ws & e & He & Hws)|[(ws & df & He & Hws & Ho)|(He & Hs & Hc)]].
        -- exists [ev_request url; ev_parse], ws. repeat split; auto.
           left. exists e. cbn -[fetch parse extract]. rewrite Hf.
           cbn -[parse extract]. rewrite Hp. cbn -[extract]. rewrite He.
           reflexivity.
        -- exists [ev_request url; ev_parse], ws. repeat split; auto.
           right. left. exists df. split; [|exact Ho].
           cbn -[fetch parse extract]. rewrite Hf.
           cbn -[parse extract]. rewrite Hp. cbn -[extract]. rewrite He.
           reflexivity.
        -- exists [ev_request url; ev_parse], []. repeat split; auto.
           right. right. repeat split; auto.
           cbn -[fetch parse extract]. rewrite Hf.
           cbn -[parse extract]. rewrite Hp. cbn -[extract]. rewrite He.
           reflexivity.
  - exists [], []. repeat split; auto; try congruence.
    left. eexists. reflexivity.
Qed.

Lemma warnings_show_text ws :
  forallb is_warning ws = true -> forallb shows_text ws = true.
Proof.
  rewrite !forallb_forall. intros H ev Hev. specialize (H ev Hev).
  destruct ev; try discriminate; reflexivity.
Qed.

(** X17. Every call of [scrape_website] sends at most one request, to
    the URL it was given and only when that URL starts with [http://]
    or [https://]; it parses at most once, and only after the request;
    everything else it does is to show or print text. Its trace is
    nothing, the request, or the request and the parse, followed by
    text. *)
Theorem one_request_then_one_parse_then_text
    w url option custom_tag description :
  exists head tail,
    fst (scrape_website w url option custom_tag description) = head ++ tail
    /\ (head = [] \/ head = [ev_request url]
        \/ head = [ev_request url; ev_parse])
    /\ (head <> [] -> http_prefixed url = true)
    /\ forallb shows_text tail = true.
Proof.
  destruct (scrape_website_cases w url option custom_tag description)
    as (head & ws & Hhead & Hurl & Hws & Hrun).
  apply warnings_show_text in Hws.
  destruct Hrun as [(e & He)|[(df & He & _)|(He & Hnil & _)]]; rewrite He;
    cbn [fst].
  - exists head, (ws ++ reported e). repeat split; auto.
    rewrite forallb_app, Hws. reflexivity.
  - exists head, ws. repeat split; auto.
  - exists head, ws. repeat split; auto.
Qed.

Lemma no_error_among_warnings ws msg :
  forallb is_warning ws = true -> ~ In (ev_error msg) ws.
Proof.
  rewrite forallb_forall. intros H Hin. specialize (H _ Hin). discriminate H.
Qed.

Lemma no_error_in_head url head msg :
  head = [] \/ head = [ev_request url] \/ head = [ev_request url; ev_parse] ->
  ~ In (ev_error msg) head.
Proof.
  intros [-> | [-> | ->]] Hin; cbn in Hin; intuition discriminate.
Qed.

(** X18. A call that shows an error returns [None], and a call that
    returns a table has shown no error. The other way round, a call
    that returns [None] has shown an error, unless the option is
    neither [Smart Extract] nor [Custom Elements]: these options, and
    only these, give [None] in silence. *)
Theorem none_is_an_error_or_an_option_without_branch
    w url option custom_tag description :
  (forall msg,
      In (ev_error msg)
         (fst (scrape_website w url option custom_tag description)) ->
      snd (scrape_website w url option custom_tag description) = None)
  /\ (snd (scrape_website w url option custom_tag description) = None ->
      (exists msg,
          In (ev_error msg)
             (fst (scrape_website w url option custom_tag description)))
      \/ (PyStr.eqb option (str "Smart Extract") = false
          /\ PyStr.eqb option (str "Custom Elements") = false)).
Proof.
  destruct (scrape_website_cases w url option custom_tag description)
    as (head & ws & Hhead & _ & Hws & Hrun).
  destruct Hrun as [(e & He)|[(df & He & _)|(He & _ & Hs & Hc)]];
    rewrite He; cbn [fst snd].
  - split; [reflexivity|]. intros _. left. eexists.
    apply in_or_app. right. apply in_or_app. right. left. reflexivity.
  - split; [|discriminate]. intros msg Hin. exfalso.
    apply in_app_or in Hin as [Hin|Hin].
    + exact (no_error_in_head url head msg Hhead Hin).
    + exact (no_error_among_warnings ws msg Hws Hin).
  - split; [reflexivity|]. intros _. right. split; assumption.
Qed.

(** ** The button handler *)

Lemma http_prefixed_truthy url : http_prefixed url = true -> truthy url = true.
Proof. destruct url; [discriminate|reflexivity]. Qed.

Lemma requests_sent_app t1 t2 :
  requests_sent (t1 ++ t2) = requests_sent t1 ++ requests_sent t2.
Proof. apply flat_map_app. Qed.

Lemma progress_bar_sends_nothing : requests_sent progress_bar = [].
Proof. reflexivity. Qed.

Lemma handle_results_sends_nothing to_csv results :
  requests_sent (handle_results to_csv results) = [].
Proof.
  unfold handle_results. destruct results as [df|]; [|reflexivity].
  destruct (negb (df_empty df)); reflexivity.
Qed.

(** X19. The handler stops at once on an empty URL, with the advisory
    [Please enter a URL], and on a URL that [is_valid_url] refuses,
    with the error [Invalid URL format. ...]: one message, no progress
    bar, and [scrape_website] is not called. *)
Theorem bad_url_stops_the_handler
    w to_csv url scraping_option custom_tag user_description :
  (truthy url = false ->
   main w to_csv url scraping_option custom_tag user_description
   = [ui_warning (warning_sign ++ str " Please enter a URL")])
  /\ (truthy url = true -> is_valid_url w url = false ->
      main w to_csv url scraping_option custom_tag user_description
      = [ui_error ([10060] ++ str " Invalid URL format. Please enter a valid URL (e.g., https://example.com)")]).
Proof.
  unfold main. split.
  - intros ->. reflexivity.
  - intros -> ->. reflexivity.
Qed.

Lemma bad_url_stops_the_handler_witness :
  main (served 200 (document [])) plain_csv [] (str "Links") [] []
  = [ui_warning (warning_sign ++ str " Please enter a URL")]
  /\ main (served 200 (document [])) plain_csv (str "example.com")
       (str "Links") [] []
     = [ui_error ([10060] ++ str " Invalid URL format. Please enter a valid URL (e.g., https://example.com)")].
Proof.
  split.
  - apply (proj1 (bad_url_stops_the_handler
                    (served 200 (document [])) plain_csv []
                    (str "Links") [] [])).
    reflexivity.
  - apply (proj2 (bad_url_stops_the_handler
                    (served 200 (document [])) plain_csv (str "example.com")
                    (str "Links") [] [])); reflexivity.
Defined.

(** X20. A click never sends a request to a URL that lacks the
    [http://] and [https://] prefixes, whatever [validators.url] says
    of it: the handler stops on it, or [scrape_website] refuses it at
    line 70. *)
Theorem handler_sends_no_request_without_http_prefix
    w to_csv url scraping_option custom_tag user_description :
  http_prefixed url = false ->
  requests_sent
    (main w to_csv url scraping_option custom_tag user_description) = [].
Proof.
  intros Hurl. unfold main.
  destruct (negb (truthy url)); [reflexivity|].
  destruct (negb (is_valid_url w url)); [reflexivity|].
  change (requests_sent (ui_spinner ?m :: ?l)) with (requests_sent l).
  rewrite requests_sent_app, progress_bar_sends_nothing. cbn [app].
  unfold scrape_and_show.
  destruct (PyStr.eqb scraping_option (str "Custom Elements")
            && negb (truthy custom_tag)); [reflexivity|].
  destruct (PyStr.eqb scraping_option (str "Smart Extract")
            && negb (truthy user_description)); [reflexivity|].
  unfold scrape_website. rewrite Hurl. cbn -[str handle_results].
  apply handle_results_sends_nothing.
Qed.

Lemma handler_sends_no_request_without_http_prefix_witness :
  requests_sent
    (main (served 200 (document [])) plain_csv (str "ftp://foobar.dk")
       (str "Smart Extract") [] (str "price")) = [].
Proof.
  apply handler_sends_no_request_without_http_prefix. reflexivity.
Defined.

(** X21. Under [Custom Elements] with an empty selector, and under
    [Smart Extract] with an empty description, the handler draws the
    progress bar, shows its own advisory and stops: [scrape_website]
    is not called, so no request is sent and the [ValueError] of lines
    103 and 137 is never raised from a click. *)
Theorem missing_parameter_stops_before_scraping
    w to_csv url custom_tag user_description :
  truthy url = true ->
  is_valid_url w url = true ->
  main w to_csv url (str "Custom Elements") [] user_description
  = ui_spinner ([128260] ++ str " Scraping in progress...")
      :: progress_bar
      ++ [ui_warning
            (warning_sign ++ str " Please enter a custom element selector")]
  /\ main w to_csv url (str "Smart Extract") custom_tag []
     = ui_spinner ([128260] ++ str " Scraping in progress...")
         :: progress_bar
         ++ [ui_warning
               (warning_sign ++ str " Please describe what you want to extract")].
Proof.
  intros Hurl Hvalid. unfold main. rewrite Hurl, Hvalid. split; reflexivity.
Qed.

Lemma missing_parameter_stops_before_scraping_witness :
  main (served 200 (document [])) plain_csv example_url
    (str "Custom Elements") [] (str "price")
  = ui_spinner ([128260] ++ str " Scraping in progress...")
      :: progress_bar
      ++ [ui_warning
            (warning_sign ++ str " Please enter a custom element selector")]
  /\ main (served 200 (document [])) plain_csv example_url
       (str "Smart Extract") (str "div") []
     = ui_spinner ([128260] ++ str " Scraping in progress...")
         :: progress_bar
         ++ [ui_warning
               (warning_sign ++ str " Please describe what you want to extract")].
Proof.
  apply missing_parameter_stops_before_scraping; reflexivity.
Defined.

Lemma no_download_in_progress_bar label data file_name mime :
  ~ In (ui_download label data file_name mime) progress_bar.
Proof.
  unfold progress_bar. intros H. apply in_map_iff in H as (n & Hn & _).
  discriminate Hn.
Qed.

Lemma no_download_in_scrape_events label data file_name mime trace :
  ~ In (ui_download label data file_name mime) (map ui_scrape trace).
Proof. intros H. apply in_map_iff in H as (ev & Hev & _). discriminate Hev. Qed.

(** X22. The handler offers a download only for a table it has got:
    whenever a download button is drawn, [scrape_website] has returned
    a table that is not empty, that table is shown, the data of the
    button are its [to_csv], the file name is [scraped_data.csv] and
    the type [text/csv]. *)
Theorem download_is_the_csv_of_the_shown_table
    w to_csv url scraping_option custom_tag user_description
    label data file_name mime :
  In (ui_download label data file_name mime)
     (main w to_csv url scraping_option custom_tag user_description) ->
  exists trace df,
    scrape_website w url scraping_option
      (if PyStr.eqb scraping_option (str "Custom Elements")
       then Some custom_tag else None)
      (if PyStr.eqb scraping_option (str "Smart Extract")
       then Some user_description else None)
    = (trace, Some df)
    /\ df_empty df = false
    /\ In (ui_dataframe df)
          (main w to_csv url scraping_option custom_tag user_description)
    /\ data = to_csv df
    /\ file_name = str "scraped_data.csv"
    /\ mime = str "text/csv".
Proof.
  unfold main.
  destruct (negb (truthy url));
    [intros [H|[]]; discriminate H|].
  destruct (negb (is_valid_url w url));
    [intros [H|[]]; discriminate H|].
  intros [H|H]; [discriminate H|].
  apply in_app_or in H as [H|H];
    [exfalso; exact (no_download_in_progress_bar _ _ _ _ H)|].
  unfold scrape_and_show in *.
  destruct (PyStr.eqb scraping_option (str "Custom Elements")
            && negb (truthy custom_tag));
    [destruct H as [H|[]]; discriminate H|].
  destruct (PyStr.eqb scraping_option (str "Smart Extract")
            && negb (truthy user_description));
    [destruct H as [H|[]]; discriminate H|].
  destruct (scrape_website w url scraping_option _ _) as [trace results].
  apply in_app_or in H as [H|H];
    [exfalso; exact (no_download_in_scrape_events _ _ _ _ _ H)|].
  unfold handle_results in *.
  destruct results as [df|]; [|destruct H as [H|[]]; discriminate H].
  destruct (df_empty df) eqn:Hdf; cbn [negb] in *;
    [destruct H as [H|[]]; discriminate H|].
  exists trace, df. split; [reflexivity|]. split; [exact Hdf|].
  split.
  - cbn [negb]. right. apply in_or_app. right. apply in_or_app. right.
    right. right. left. reflexivity.
  - destruct H as [H|[H|[H|[H|[]]]]]; try discriminate H.
    injection H as _ <- <- <-. repeat split.
Qed.

Lemma download_is_the_csv_of_the_shown_table_witness :
  exists trace df,
    scrape_website (served 200 (document [span (str "$10")])) example_url
      (str "Smart Extract") None (Some (str "price"))
    = (trace, Some df)
    /\ df_empty df = false
    /\ In (ui_dataframe df)
          (main (served 200 (document [span (str "$10")])) plain_csv
             example_url (str "Smart Extract") [] (str "price"))
    /\ str "Type,Content" ++ [10] ++ str "Price,$10" ++ [10] = plain_csv df
    /\ str "scraped_data.csv" = str "scraped_data.csv"
    /\ str "text/csv" = str "text/csv".
Proof.
  apply (download_is_the_csv_of_the_shown_table
           (served 200 (document [span (str "$10")])) plain_csv example_url
           (str "Smart Extract") [] (str "price")
           ([128229] ++ str " Download CSV")).
  unfold main. cbn [truthy example_url negb].
  right. apply in_or_app. right.
  do 5 right. left. reflexivity.
Defined.

(** X23. A failure and an empty result look the same on the page. When
    the URL and the parameter of the option pass the checks and
    [scrape_website] returns [None] or an empty table, the handler ends
    with the advisory [No data found for the given criteria], after
    whatever [scrape_website] has shown, and draws neither table nor
    download. *)
Theorem none_and_empty_end_in_no_data_found
    w to_csv url scraping_option custom_tag user_description trace results :
  truthy url = true ->
  is_valid_url w url = true ->
  PyStr.eqb scraping_option (str "Custom Elements")
    && negb (truthy custom_tag) = false ->
  PyStr.eqb scraping_option (str "Smart Extract")
    && negb (truthy user_description) = false ->
  scrape_website w url scraping_option
    (if PyStr.eqb scraping_option (str "Custom Elements")
     then Some custom_tag else None)
    (if PyStr.eqb scraping_option (str "Smart Extract")
     then Some user_description else None)
  = (trace, results) ->
  results = None \/ (exists df, results = Some df /\ df_empty df = true) ->
  main w to_csv url scraping_option custom_tag user_description
  = ui_spinner ([128260] ++ str " Scraping in progress...")
      :: progress_bar
      ++ map ui_scrape trace
      ++ [ui_warning
            (warning_sign ++ str " No data found for the given criteria")].
Proof.
  intros Hurl Hvalid Hc Hs Hrun Hres. unfold main, scrape_and_show.
  rewrite Hurl, Hvalid, Hc, Hs, Hrun. cbn [negb].
  destruct Hres as [-> | (df & -> & Hdf)]; unfold handle_results.
  - reflexivity.
  - rewrite Hdf. reflexivity.
Qed.

Lemma none_and_empty_end_in_no_data_found_witness :
  main (served 404 (document [])) plain_csv example_url
    (str "Smart Extract") [] (str "price")
  = ui_spinner ([128260] ++ str " Scraping in progress...")
      :: progress_bar
      ++ map ui_scrape
           (ev_request example_url
              :: reported (mkExn Exception
                   (str "Page not found. Please check if the URL is correct.")))
      ++ [ui_warning
            (warning_sign ++ str " No data found for the given criteria")].
Proof.
  apply (none_and_empty_end_in_no_data_found
           (served 404 (document [])) plain_csv example_url
           (str "Smart Extract") [] (str "price")
           (ev_request example_url
              :: reported (mkExn Exception
                   (str "Page not found. Please check if the URL is correct.")))
           None); try reflexivity.
  left. reflexivity.
Defined.

(** X24. What a user sees of the three options without a branch: for
    every page that loads and a URL the validator accepts, a click with
    [Links], [Text Content] or [Images] draws the progress bar, sends
    the request, parses the page and ends with
    [No data found for the given criteria], whatever the page holds. *)
Theorem links_text_images_show_no_data_found
    w to_csv url soup scraping_option custom_tag user_description :
  loads w url soup ->
  is_valid_url w url = true ->
  In scraping_option [str "Links"; str "Text Content"; str "Images"] ->
  main w to_csv url scraping_option custom_tag user_description
  = ui_spinner ([128260] ++ str " Scraping in progress...")
      :: progress_bar
      ++ [ui_scrape (ev_request url); ui_scrape ev_parse;
          ui_warning
            (warning_sign ++ str " No data found for the given criteria")].
Proof.
  intros Hload Hvalid Hopt. unfold main, scrape_and_show.
  rewrite (http_prefixed_truthy url (proj1 Hload)), Hvalid. cbn [negb].
  rewrite (scrape_website_loaded _ _ _ _ _ _ Hload).
  cbn in Hopt. destruct Hopt as [<-|[<-|[<-|[]]]]; reflexivity.
Qed.

Lemma links_text_images_show_no_data_found_witness :
  main
    (served 200 (document [anchor (str "https://example.com/a") (str "A")]))
    plain_csv example_url (str "Links") [] []
  = ui_spinner ([128260] ++ str " Scraping in progress...")
      :: progress_bar
      ++ [ui_scrape (ev_request example_url); ui_scrape ev_parse;
          ui_warning
            (warning_sign ++ str " No data found for the given criteria")].
Proof.
  apply links_text_images_show_no_data_found with
    (soup := document [anchor (str "https://example.com/a") (str "A")]).
  - apply served_loads; reflexivity.
  - reflexivity.
  - left. reflexivity.
Defined.

(** ** The price list at any depth *)












